(** * Matter session library: a shallow embedding and its verified properties

    The development follows the JavaScript sources

      - [src/utils/request.js]  the Request Client ([request.get/post/put/del],
        [addAuthHeader], [handleResponse]);
      - [src/index.js]          the Session Facade (class [Matter]).

    JavaScript values are embedded as the inductive type [value]; the
    operations of the language the sources rely on (truthiness, property
    access, loose equality, string conversion, [JSON.parse]) and the few
    lodash helpers they import are written out below, before the model of
    the two source files. *)

From Stdlib Require Import ZArith Ascii String List Bool Lia DecimalString.
From stdpp Require Import base option list strings gmap.

Local Open Scope Z_scope.

(** ** JavaScript values *)

(** A number [VNum m e] stands for the decimal [m * 10^e]: every numeric
    literal of JSON and every integer constant of the sources has this form.
    IEEE rounding, [NaN] and the infinities are outside the model. Objects
    keep their fields in insertion order. *)
#[warnings="-register-all"]
Inductive value : Type :=
| VUndefined
| VNull
| VBool (b : bool)
| VNum (m e : Z)
| VStr (s : string)
| VArr (items : list value)
| VObj (fields : list (string * value)).

(** Outcome of evaluating an expression or a function body: a result, or
    a thrown exception. *)
Inductive completion (A : Type) : Type :=
| Normal (a : A)
| Throw (e : value).
Arguments Normal {A} a.
Arguments Throw {A} e.

#[global] Instance completion_ret : MRet completion := @Normal.
#[global] Instance completion_bind : MBind completion :=
  fun A B f c => match c with Normal a => f a | Throw e => Throw e end.

Definition TypeError (message : string) : value :=
  VObj [("name", VStr "TypeError"); ("message", VStr message)].

(** *** Numbers *)

Fixpoint strip10 (fuel : nat) (m e : Z) : Z * Z :=
  match fuel with
  | O => (m, e)
  | S fuel' =>
      if (m =? 0) then (0, 0)
      else if (m mod 10 =? 0) then strip10 fuel' (m / 10) (e + 1)
      else (m, e)
  end.

(** Canonical form: the mantissa of a non-zero number is not a multiple of
    ten, and zero is [(0, 0)]. *)
Definition normalize (m e : Z) : Z * Z :=
  strip10 (S (Z.to_nat (Z.log2 (Z.abs m)))) m e.

Definition num (n : Z) : value :=
  let '(m, e) := normalize n 0 in VNum m e.

Definition number_eqb (a b : Z * Z) : bool :=
  let '(m1, e1) := normalize (fst a) (snd a) in
  let '(m2, e2) := normalize (fst b) (snd b) in
  (m1 =? m2) && (e1 =? e2).

Definition digits_of_Z (n : Z) : string :=
  match n with
  | Zpos p => NilEmpty.string_of_uint (Pos.to_uint p)
  | _ => "0"
  end.

Fixpoint zeros (n : nat) : string :=
  match n with O => "" | S n' => String "0" (zeros n') end.

(** [Number::toString] (radix 10) on the canonical digits [ds] of the
    mantissa, [k] their count and [n = k + e] the position of the point. *)
Definition number_to_string (m0 e0 : Z) : string :=
  let '(m, e) := normalize m0 e0 in
  if m =? 0 then "0" else
  let sign := if m <? 0 then "-" else "" in
  let ds := digits_of_Z (Z.abs m) in
  let k := Z.of_nat (String.length ds) in
  let n := k + e in
  sign +:+
  (if (k <=? n) && (n <=? 21) then ds +:+ zeros (Z.to_nat (n - k))
   else if (0 <? n) && (n <=? 21) then
     substring 0 (Z.to_nat n) ds +:+ "." +:+
     substring (Z.to_nat n) (Z.to_nat (k - n)) ds
   else if (-6 <? n) && (n <=? 0) then "0." +:+ zeros (Z.to_nat (- n)) +:+ ds
   else
     let x := n - 1 in
     let es := (if x <? 0 then "-" else "+") +:+ digits_of_Z (Z.abs x) in
     if k =? 1 then ds +:+ "e" +:+ es
     else substring 0 1 ds +:+ "." +:+ substring 1 (Z.to_nat (k - 1)) ds
          +:+ "e" +:+ es).

(** *** Strings *)

Fixpoint join (sep : string) (parts : list string) : string :=
  match parts with
  | [] => ""
  | [p] => p
  | p :: rest => p +:+ sep +:+ join sep rest
  end.

(** [ToString]: arrays join their elements with commas ([null] and
    [undefined] elements print as the empty string), plain objects print
    as ["[object Object]"]. *)
Fixpoint ToString (v : value) : string :=
  match v with
  | VUndefined => "undefined"
  | VNull => "null"
  | VBool true => "true"
  | VBool false => "false"
  | VNum m e => number_to_string m e
  | VStr s => s
  | VArr items =>
      join ","
        ((fix elems (l : list value) : list string :=
            match l with
            | [] => []
            | x :: l' =>
                match x with
                | VUndefined | VNull => ""
                | _ => ToString x
                end :: elems l'
            end) items)
  | VObj _ => "[object Object]"
  end.

(** [s.split(sep)] for a one-character separator: always at least one
    piece. *)
Fixpoint split (sep : ascii) (s : string) : list string :=
  match s with
  | EmptyString => [EmptyString]
  | String c s' =>
      if Ascii.eqb c sep then EmptyString :: split sep s'
      else
        match split sep s' with
        | piece :: pieces => String c piece :: pieces
        | [] => [String c EmptyString]
        end
  end.

(** [s.indexOf(c) !== -1] *)
Fixpoint contains_char (c : ascii) (s : string) : bool :=
  match s with
  | EmptyString => false
  | String c' s' => Ascii.eqb c' c || contains_char c s'
  end.

(** *** Decimal literals *)

Definition code (c : ascii) : Z := Z.of_N (N_of_ascii c).

Definition is_digit (c : ascii) : bool := (48 <=? code c) && (code c <=? 57).

Definition is_whitespace (c : ascii) : bool :=
  (code c =? 9) || (code c =? 10) || (code c =? 13) || (code c =? 32).

Fixpoint span_digits (cs : list ascii) : list ascii * list ascii :=
  match cs with
  | c :: cs' =>
      if is_digit c then
        let '(ds, rest) := span_digits cs' in (c :: ds, rest)
      else ([], cs)
  | [] => ([], [])
  end.

Definition digits_val (ds : list ascii) : Z :=
  fold_left (fun acc c => acc * 10 + (code c - 48)) ds 0.

(** Optional exponent part [e|E [+|-] digits]: its value and the rest of
    the input; [(0, cs)] when [cs] does not start with a complete one. *)
Definition scan_exponent (cs : list ascii) : Z * list ascii :=
  match cs with
  | c :: cs1 =>
      if (code c =? 101) || (code c =? 69) then
        let '(sgn, cs2) :=
          match cs1 with
          | s :: r =>
              if code s =? 43 then (1, r)
              else if code s =? 45 then (-1, r)
              else (1, cs1)
          | [] => (1, cs1)
          end in
        let '(ds, rest) := span_digits cs2 in
        match ds with
        | [] => (0, cs)
        | _ => (sgn * digits_val ds, rest)
        end
      else (0, cs)
  | [] => (0, cs)
  end.

Fixpoint drop_whitespace (cs : list ascii) : list ascii :=
  match cs with
  | c :: cs' => if is_whitespace c then drop_whitespace cs' else cs
  | [] => []
  end.

Definition trim (cs : list ascii) : list ascii :=
  rev (drop_whitespace (rev (drop_whitespace cs))).

Definition is_hex_digit (c : ascii) : bool :=
  is_digit c || ((97 <=? code c) && (code c <=? 102))
             || ((65 <=? code c) && (code c <=? 70)).

Definition hex_val (c : ascii) : Z :=
  if is_digit c then code c - 48
  else if 97 <=? code c then code c - 87
  else code c - 55.

(** Unsigned decimal of [StringToNumber]: [digits [. [digits]] [exp]] or
    [. digits [exp]], to the end of the input. *)
Definition unsigned_decimal (cs : list ascii) : option (Z * Z) :=
  let '(ip, cs1) := span_digits cs in
  let '(fp, cs2) :=
    match cs1 with
    | c :: r => if code c =? 46 then span_digits r else ([], cs1)
    | [] => ([], cs1)
    end in
  match ip, fp with
  | [], [] => None
  | _, _ =>
      let '(x, cs3) := scan_exponent cs2 in
      match cs3 with
      | [] => Some (normalize (digits_val (ip ++ fp))
                              (x - Z.of_nat (length fp)))
      | _ => None
      end
  end.

(** [ToNumber] on a string; [None] stands for [NaN] (and for [Infinity],
    which compares unequal to every finite number as [NaN] does). *)
Definition string_to_number (s : string) : option (Z * Z) :=
  match trim (list_ascii_of_string s) with
  | [] => Some (0, 0)
  | c :: r =>
      match r with
      | x :: h :: hs =>
          if (code c =? 48) && ((code x =? 120) || (code x =? 88)) then
            if forallb is_hex_digit (h :: hs) then
              Some (normalize
                      (fold_left (fun acc d => acc * 16 + hex_val d) (h :: hs) 0)
                      0)
            else None
          else if code c =? 43 then unsigned_decimal r
          else if code c =? 45 then
            '(m, e) ← unsigned_decimal r; Some (- m, e)
          else unsigned_decimal (c :: r)
      | _ =>
          if code c =? 43 then unsigned_decimal r
          else if code c =? 45 then
            '(m, e) ← unsigned_decimal r; Some (- m, e)
          else unsigned_decimal (c :: r)
      end
  end.

(** *** Truthiness, properties, equality *)

Definition truthy (v : value) : bool :=
  match v with
  | VUndefined | VNull => false
  | VBool b => b
  | VNum m _ => negb (m =? 0)
  | VStr s => negb (String.eqb s "")
  | VArr _ | VObj _ => true
  end.

Fixpoint lookup_field (k : string) (fields : list (string * value))
  : option value :=
  match fields with
  | [] => None
  | (k', v) :: rest => if String.eqb k k' then Some v else lookup_field k rest
  end.

(** An array index written as a property key: ["0"], ["1"], ["12"], ... *)
Definition index_of_key (k : string) : option nat :=
  let cs := list_ascii_of_string k in
  match cs with
  | [] => None
  | c :: r =>
      if forallb is_digit cs
         && (negb (code c =? 48) || match r with [] => true | _ => false end)
      then Some (Z.to_nat (digits_val cs))
      else None
  end.

(** Own properties. Inherited (prototype) properties are not modelled:
    none of the keys the sources read is one. *)
Definition own_property (v : value) (k : string) : option value :=
  match v with
  | VObj fields => lookup_field k fields
  | VArr items =>
      if String.eqb k "length" then Some (num (Z.of_nat (length items)))
      else i ← index_of_key k; items !! i
  | VStr s =>
      if String.eqb k "length" then Some (num (Z.of_nat (String.length s)))
      else i ← index_of_key k; c ← String.get i s; Some (VStr (String c ""))
  | _ => None
  end.

(** [object[key]] and [object.key]: reading a property of [undefined] or
    [null] throws. *)
Definition get (object : value) (key : string) : completion value :=
  match object with
  | VUndefined | VNull =>
      Throw (TypeError ("Cannot read property '" +:+ key +:+ "' of " +:+ ToString object))
  | _ => Normal (default VUndefined (own_property object key))
  end.

(** [x == n] for a number [n]. *)
Definition loose_eq_num (x : value) (n : Z) : bool :=
  match x with
  | VUndefined | VNull => false
  | VNum m e => number_eqb (m, e) (n, 0)
  | VBool b => number_eqb ((if b then 1 else 0), 0) (n, 0)
  | VStr s =>
      match string_to_number s with
      | Some x => number_eqb x (n, 0)
      | None => false
      end
  | VArr _ | VObj _ =>
      match string_to_number (ToString x) with
      | Some x => number_eqb x (n, 0)
      | None => false
      end
  end.

(** [s == x] for a string [s]. *)
Definition loose_eq_str (s : string) (x : value) : bool :=
  match x with
  | VUndefined | VNull => false
  | VStr t => String.eqb s t
  | VNum m e =>
      match string_to_number s with
      | Some y => number_eqb y (m, e)
      | None => false
      end
  | VBool b =>
      match string_to_number s with
      | Some y => number_eqb y ((if b then 1 else 0), 0)
      | None => false
      end
  | VArr _ | VObj _ => String.eqb s (ToString x)
  end.

(** [x === ''] *)
Definition is_empty_string (x : value) : bool :=
  match x with VStr s => String.eqb s "" | _ => false end.

(** [a || b] *)
Definition or_else (a b : value) : value := if truthy a then a else b.

(** ** lodash helpers imported by [index.js] *)

Definition isString (v : value) : bool :=
  match v with VStr _ => true | _ => false end.

Definition isArray (v : value) : bool :=
  match v with VArr _ => true | _ => false end.

(** [_.isObject]: the language type Object, arrays included. *)
Definition isObject (v : value) : bool :=
  match v with VArr _ | VObj _ => true | _ => false end.

(** [_.has(object, key)]: an own property, [false] on [null]/[undefined]. *)
Definition has (object : value) (key : string) : bool :=
  bool_decide (is_Some (own_property object key)).

(** The elements a lodash collection function visits. *)
Definition elements (collection : value) : list value :=
  match collection with
  | VArr items => items
  | VObj fields => snd <$> fields
  | VStr s => (fun c => VStr (String c "")) <$> list_ascii_of_string s
  | _ => []
  end.

(** [_.any(collection, predicate)] (alias of [_.some]) for a function
    predicate: left to right, stopping at the first truthy answer. *)
Fixpoint any_list (predicate : value -> completion bool) (l : list value)
  : completion bool :=
  match l with
  | [] => Normal false
  | x :: rest =>
      b ← predicate x;
      if b : bool then Normal true else any_list predicate rest
  end.

Definition any (collection : value) (predicate : value -> completion bool)
  : completion bool :=
  any_list predicate (elements collection).

(** [_.property(key)] *)
Definition property (key : string) (object : value) : value :=
  match object with
  | VUndefined | VNull => VUndefined
  | _ => default VUndefined (own_property object key)
  end.

(** [_.every(array, predicate)] for a predicate that is not a function.
    lodash turns such a predicate into a callback before iterating:
    [null]/[undefined] gives the identity, any other primitive [p] gives
    the property shorthand [_.property(p)], which reads the property named
    [ToString p] from each element. (An object predicate would be a
    [_.matches] shorthand; the sources pass none.) The result is [true] iff
    the callback is truthy on every element. *)
Definition callback (predicate : value) (element : value) : value :=
  match predicate with
  | VUndefined | VNull => element
  | _ => property (ToString predicate) element
  end.

Definition every (array : list value) (predicate : value) : bool :=
  forallb (fun x => truthy (callback predicate x)) array.

(** ** [JSON.parse] *)

Module JSON.

Definition SyntaxError : value :=
  VObj [("name", VStr "SyntaxError"); ("message", VStr "Unexpected token")].

(** The UTF-8 bytes of the code unit of a [\uXXXX] escape. *)
Definition utf8 (cp : Z) : string :=
  let byte (n : Z) := ascii_of_N (Z.to_N n) in
  if cp <? 128 then String (byte cp) EmptyString
  else if cp <? 2048 then
    String (byte (192 + cp / 64))
      (String (byte (128 + cp mod 64)) EmptyString)
  else
    String (byte (224 + cp / 4096))
      (String (byte (128 + (cp / 64) mod 64))
         (String (byte (128 + cp mod 64)) EmptyString)).

(** [cs] without the prefix [p], when it starts with it. *)
Fixpoint strip_prefix (p cs : list ascii) : option (list ascii) :=
  match p, cs with
  | [], _ => Some cs
  | a :: p', c :: cs' => if Ascii.eqb a c then strip_prefix p' cs' else None
  | _ :: _, [] => None
  end.

Local Open Scope char_scope.

(** The character a two-character escape stands for. *)
Definition escape (e : ascii) : option ascii :=
  if e =? "034" then Some "034"
  else if e =? "\" then Some "\"
  else if e =? "/" then Some "/"
  else if e =? "b" then Some "008"
  else if e =? "f" then Some "012"
  else if e =? "n" then Some "010"
  else if e =? "r" then Some "013"
  else if e =? "t" then Some "009"
  else None.

(** The characters of a string literal after its opening quote, up to
    the closing one. Control characters must be escaped. *)
Fixpoint string_body (cs : list ascii) : option (string * list ascii) :=
  match cs with
  | [] => None
  | c :: rest =>
      if c =? "034" then Some (EmptyString, rest)
      else if c =? "\" then
        match rest with
        | [] => None
        | e :: rest1 =>
            if e =? "u" then
              match rest1 with
              | h1 :: h2 :: h3 :: h4 :: rest2 =>
                  if forallb is_hex_digit [h1; h2; h3; h4] then
                    '(s, r) ← string_body rest2;
                    Some (utf8 (fold_left (fun acc d => acc * 16 + hex_val d)
                                          [h1; h2; h3; h4] 0%Z) +:+ s, r)
                  else None
              | _ => None
              end
            else
              c' ← escape e;
              '(s, r) ← string_body rest1;
              Some (String c' s, r)
        end
      else if (code c <? 32)%Z then None
      else '(s, r) ← string_body rest; Some (String c s, r)
  end.

(** A number literal: an optional minus sign; an integer part, either
    a single zero or digits not starting with zero; an optional
    fraction (a point and at least one digit); an optional exponent. *)
Definition number (cs : list ascii) : option (value * list ascii) :=
  let '(sgn, cs0) :=
    match cs with
    | c :: r => if c =? "-" then ((-1)%Z, r) else (1%Z, cs)
    | [] => (1%Z, cs)
    end in
  '(ip, cs1) ←
    match cs0 with
    | c :: r =>
        if c =? "0" then Some ([c], r)
        else match span_digits cs0 with
             | ([], _) => None
             | p => Some p
             end
    | [] => None
    end;
  let '(fp, cs2) :=
    match cs1 with
    | c :: r =>
        if c =? "." then
          match span_digits r with
          | ([], _) => ([], cs1)
          | p => p
          end
        else ([], cs1)
    | [] => ([], cs1)
    end in
  let '(x, cs3) := scan_exponent cs2 in
  let '(m, e) := normalize (sgn * digits_val (ip ++ fp))
                           (x - Z.of_nat (length fp)) in
  Some (VNum m e, cs3).

(** Assignment to a key: a repeated key keeps its place and takes the
    later value. *)
Fixpoint set_field (k : string) (v : value) (fields : list (string * value))
  : list (string * value) :=
  match fields with
  | [] => [(k, v)]
  | (k', v') :: rest =>
      if String.eqb k k' then (k, v) :: rest
      else (k', v') :: set_field k v rest
  end.

(** The literals [true], [false] and [null], or else a number. *)
Definition literal (cs : list ascii) : option (value * list ascii) :=
  match strip_prefix (list_ascii_of_string "true") cs with
  | Some r => Some (VBool true, r)
  | None =>
      match strip_prefix (list_ascii_of_string "false") cs with
      | Some r => Some (VBool false, r)
      | None =>
          match strip_prefix (list_ascii_of_string "null") cs with
          | Some r => Some (VNull, r)
          | None => number cs
          end
      end
  end.

(** Whether [cs] starts, after white space, with the character [c]; the
    rest after it. *)
Definition token (c : ascii) (cs : list ascii) : option (list ascii) :=
  match drop_whitespace cs with
  | c' :: r => if c' =? c then Some r else None
  | [] => None
  end.

Fixpoint json_value (fuel : nat) (cs : list ascii)
  : option (value * list ascii) :=
  match fuel with
  | O => None
  | S fuel' =>
      match token "{" cs with
      | Some r =>
          match token "}" r with
          | Some r' => Some (VObj [], r')
          | None => json_members fuel' r []
          end
      | None =>
      match token "[" cs with
      | Some r =>
          match token "]" r with
          | Some r' => Some (VArr [], r')
          | None => json_elements fuel' r []
          end
      | None =>
      match token "034" cs with
      | Some r => '(s, r') ← string_body r; Some (VStr s, r')
      | None => literal (drop_whitespace cs)
      end end end
  end
with json_elements (fuel : nat) (cs : list ascii) (acc : list value)
  : option (value * list ascii) :=
  match fuel with
  | O => None
  | S fuel' =>
      '(v, r) ← json_value fuel' cs;
      match token "," r with
      | Some r' => json_elements fuel' r' (acc ++ [v])
      | None =>
          r' ← token "]" r; Some (VArr (acc ++ [v]), r')
      end
  end
with json_members (fuel : nat) (cs : list ascii) (acc : list (string * value))
  : option (value * list ascii) :=
  match fuel with
  | O => None
  | S fuel' =>
      r ← token "034" cs;
      '(k, r1) ← string_body r;
      r2 ← token ":" r1;
      '(v, r3) ← json_value fuel' r2;
      match token "," r3 with
      | Some r4 => json_members fuel' r4 (set_field k v acc)
      | None =>
          r4 ← token "}" r3; Some (VObj (set_field k v acc), r4)
      end
  end.

(** [JSON.parse(text)]: the whole text must be one JSON value. The fuel
    is enough for every text (lemma [parse_text_fuel] below). *)
Definition parse_text (text : string) : completion value :=
  let cs := list_ascii_of_string text in
  match json_value (2 * length cs + 2) cs with
  | Some (v, rest) =>
      match drop_whitespace rest with
      | [] => Normal v
      | _ => Throw SyntaxError
      end
  | None => Throw SyntaxError
  end.

(** [JSON.parse(x)] converts its argument to a string first. *)
Definition parse (x : value) : completion value := parse_text (ToString x).

End JSON.

(** ** Requests, promises and the state of the client *)

Inductive method : Type := GET | POST | PUT | DELETE.

(** A request under construction with superagent: [query] and [data] are
    [undefined] until [req.query(..)] / [req.send(..)] set them, [header]
    holds what [req.set(field, val)] stored. *)
Record Request : Type := mkRequest {
  req_method : method;
  req_url : string;
  req_query : value;
  req_data : value;
  req_header : gmap string string
}.

(** Outcome of an asynchronous operation: the promise it returns is
    fulfilled, rejected, or never settled. The last happens when the
    callback of [req.end], which superagent calls once the network has
    answered, throws before it reaches [resolve] or [reject]: nothing
    catches the exception for the promise. *)
Inductive promise : Type :=
| Resolved (v : value)
| Rejected (reason : value)
| Unsettled.

(** The mutable state the client works on: the Token Manager's in-memory
    copy of the token, the Environment Storage, and the log of the
    requests handed to the transport so far. *)
Record state : Type := mkState {
  token_cache : option value;
  storage : gmap string value;
  sent : list Request
}.

(** What the modules outside [request.js] and [index.js] provide. *)
Class Platform : Type := {
  (** [config.tokenName]: the storage key of the raw token *)
  tokenName : string;
  (** [config.tokenUserDataName]: the storage key of the account record *)
  tokenUserDataName : string;
  (** the claims encoded in a token string, [null] when it is malformed *)
  decode : string -> value;
  (** the value of [this.endpoint] (URL construction is configuration) *)
  endpoint : string;
  (** the network: the pair [(errorRes, res)] that superagent passes to
      the callback of [req.end] *)
  transport : Request -> value * value;
  (** the Provider-Auth collaborator: [new ProviderAuth({provider, app})]
      followed by [.signup(provider)], respectively [.login()] *)
  ProviderAuth_signup : value -> state -> promise * state;
  ProviderAuth_login : value -> state -> promise * state
}.

(** A measure of how deep [isInGroup] and [isInGroups] can call each
    other on a value: arrays and objects nest, and a comma-joined string
    is split once into an array of comma-free names. *)
Fixpoint rank (v : value) : nat :=
  match v with
  | VStr s => if contains_char "," s then 2 else 0
  | VArr items =>
      S ((fix go (l : list value) : nat :=
            match l with
            | [] => O
            | x :: l' => Nat.max (rank x) (go l')
            end) items)
  | VObj fields =>
      S ((fix go (l : list (string * value)) : nat :=
            match l with
            | [] => O
            | (_, x) :: l' => Nat.max (rank x) (go l')
            end) fields)
  | _ => O
  end.

(** [promise.then(onFulfilled)] and [promise.catch(onRejected)]: the
    handler's own outcome (a returned value, a returned promise or a thrown
    exception) is folded into the [promise] it yields. *)
Definition then_ (p : promise * state)
    (onFulfilled : value -> state -> promise * state) : promise * state :=
  match p with
  | (Resolved v, st) => onFulfilled v st
  | _ => p
  end.

Definition catch_ (p : promise * state)
    (onRejected : value -> state -> promise * state) : promise * state :=
  match p with
  | (Rejected e, st) => onRejected e st
  | _ => p
  end.

(** [array.map(f)] for a callback with boolean results that may throw, or
    run out of fuel ([None]). *)
Fixpoint array_map (f : value -> option (completion bool)) (l : list value)
  : option (completion (list bool)) :=
  match l with
  | [] => Some (Normal [])
  | x :: rest =>
      match f x with
      | None => None
      | Some (Throw e) => Some (Throw e)
      | Some (Normal b) =>
          match array_map f rest with
          | None => None
          | Some (Throw e) => Some (Throw e)
          | Some (Normal bs) => Some (Normal (b :: bs))
          end
      end
  end.

(** [array.map(f)] for a callback that may throw. *)
Fixpoint map_results (f : value -> completion bool) (l : list value)
  : completion (list bool) :=
  match l with
  | [] => Normal []
  | x :: rest =>
      b ← f x;
      bs ← map_results f rest;
      Normal (b :: bs)
  end.

Section Model.

Context `{Platform}.

(** *** Environment Storage *)

(** Modelled from the spec: [utils/envStorage] is not among the sources.
    Section 4.1: [get(key) -> value|null], [set(key, value)],
    [remove(key)]; a missing key reads as [null]; structured values
    round-trip exactly. The choice of backend is not modelled. *)
Definition getItem (key : string) (st : state) : value :=
  default VNull (storage st !! key).

(** Modelled from the spec: [set(key, value)] of [utils/envStorage],
    section 4.1. *)
Definition setItem (key : string) (v : value) (st : state) : state :=
  mkState (token_cache st) (<[key := v]> (storage st)) (sent st).

(** Modelled from the spec: [remove(key)] of [utils/envStorage], section
    4.1. *)
Definition removeItem (key : string) (st : state) : state :=
  mkState (token_cache st) (delete key (storage st)) (sent st).

(** *** Token Manager *)

(** Modelled from the spec: [utils/token] is not among the sources.
    Section 4.2: [get string] is the current raw token, sourced from
    storage if not already cached in memory. *)
Definition token_string (st : state) : value :=
  match token_cache st with
  | Some t => t
  | None => getItem tokenName st
  end.

(** Modelled from the spec: [set string(value)] of [utils/token], section
    4.2: persists the token to storage; the decoded claims are recomputed
    on next access. *)
Definition token_set (t : value) (st : state) : state :=
  mkState (Some t) (<[tokenName := t]> (storage st)) (sent st).

(** Modelled from the spec: [get data] of [utils/token], section 4.2:
    the decoded claims, [null] if there is no token or if decoding
    fails. *)
Definition token_data (st : state) : value :=
  match token_string st with
  | VStr s => if String.eqb s "" then VNull else decode s
  | _ => VNull
  end.

(** Modelled from the spec: [delete()] of [utils/token], section 4.2:
    clears both the in-memory token and the persisted copy. *)
Definition token_delete (st : state) : state :=
  mkState None (delete tokenName (storage st)) (sent st).

(** *** Request Client ([utils/request.js]) *)

Definition superagent (m : method) (url : string) : Request :=
  mkRequest m url VUndefined VUndefined ∅.

(** [req.query(val)], [req.send(data)], [req.set(field, val)] *)
Definition query (val : value) (req : Request) : Request :=
  mkRequest (req_method req) (req_url req) val (req_data req) (req_header req).

Definition send (data : value) (req : Request) : Request :=
  mkRequest (req_method req) (req_url req) (req_query req) data (req_header req).

Definition set (field val : string) (req : Request) : Request :=
  mkRequest (req_method req) (req_url req) (req_query req) (req_data req)
    (<[field := val]> (req_header req)).

(** [superagent.put(url, data)] sends [data] when it is truthy. *)
Definition superagent_put (url : string) (data : value) : Request :=
  let req := superagent PUT url in
  if truthy data then send data req else req.

Definition addAuthHeader (req : Request) (st : state) : Request :=
  if truthy (token_string st) then
    set "Authorization" ("Bearer " +:+ ToString (token_string st)) req
  else req.

(** [handleResponse(req)]: [req.end] hands the request to the transport
    and calls back with [(errorRes, res)]. (Requests built by superagent
    always have an [end] method, so the guard on [typeof req.end] never
    fires; the 401 test of the error branch only logs.) *)
Definition handleResponse (req : Request) (st : state) : promise * state :=
  let st' := mkState (token_cache st) (storage st) (sent st ++ [req]) in
  let '(errorRes, res) := transport req in
  if truthy errorRes then
    let reason : completion value :=
      response ← get errorRes "response";
      error ←
        (if truthy response then
           body ← get response "body";
           if truthy body then get body "error" else Normal errorRes
         else Normal errorRes);
      message ← get error "message";
      Normal (or_else message error) in
    match reason with
    | Normal r => (Rejected r, st')
    | Throw _ => (Unsettled, st')
    end
  else
    match get res "body" with
    | Normal body =>
        match JSON.parse body with
        | Normal parsed => (Resolved parsed, st')
        | Throw _ => (Resolved body, st')
        end
    | Throw _ => (Unsettled, st')
    end.

Definition request_get (endpoint : string) (queryData : value) (st : state)
  : promise * state :=
  let req := superagent GET endpoint in
  let req := if truthy queryData then query queryData req else req in
  let req := addAuthHeader req st in
  handleResponse req st.

Definition request_post (endpoint : string) (data : value) (st : state)
  : promise * state :=
  let req := send data (superagent POST endpoint) in
  let req := addAuthHeader req st in
  handleResponse req st.

Definition request_put (endpoint : string) (data : value) (st : state)
  : promise * state :=
  let req := superagent_put endpoint data in
  let req := addAuthHeader req st in
  handleResponse req st.

Definition request_del (endpoint : string) (data : value) (st : state)
  : promise * state :=
  let req := superagent_put endpoint data in
  let req := addAuthHeader req st in
  handleResponse req st.

(** The four operations of the [request] object, by verb. *)
Inductive verb : Type := get_verb | post_verb | put_verb | del_verb.

Definition request_call (v : verb)
  : string -> value -> state -> promise * state :=
  match v with
  | get_verb => request_get
  | post_verb => request_post
  | put_verb => request_put
  | del_verb => request_del
  end.

(** The request each operation builds before [addAuthHeader]. *)
Definition built (v : verb) (url : string) (data : value) : Request :=
  match v with
  | get_verb =>
      if truthy data then query data (superagent GET url)
      else superagent GET url
  | post_verb => send data (superagent POST url)
  | put_verb | del_verb => superagent_put url data
  end.

End Model.

(** ** Session Facade ([index.js], class [Matter]) *)

(** [object.key] where the surrounding tests have established that
    [object] is neither [null] nor [undefined], so the read cannot throw. *)
Definition read (object : value) (key : string) : value :=
  default VUndefined (own_property object key).

Definition Error (message : string) : value :=
  VObj [("name", VStr "Error"); ("message", VStr message)].

(** The fields the constructor stores on the instance; [options] is only
    set when [opts] is given. *)
Record Matter : Type := mkMatter {
  name : value;
  options : option value
}.

(** [new Matter(appName, opts)], together with the value of
    [config.logLevel] afterwards. *)
Definition constructor (appName opts : value) (logLevel : value)
  : completion (Matter * value) :=
  if negb (truthy appName) then
    Throw (Error "Application name is required to use Matter")
  else
    Normal
      (if truthy opts then
         (mkMatter appName (Some opts),
          if truthy (read opts "logLevel") then read opts "logLevel"
          else logLevel)
       else (mkMatter appName None, logLevel)).

(** The rejection records of the validation steps. *)
Definition failure (message status : string) : value :=
  VObj [("message", VStr message); ("status", VStr status)].

(** The test [groupName == group.name] that [isInGroup] gives to [any]. *)
Definition name_matches (groupName : string) (group : value)
  : completion bool :=
  group_name ← get group "name";
  Normal (loose_eq_str groupName group_name).

Section Facade.

Context `{Platform}.

(** [get isLoggedIn] *)
Definition isLoggedIn (st : state) : bool :=
  if truthy (token_string st) then true else false.

(** [get currentUser] and [set currentUser] *)
Definition currentUser (st : state) : value :=
  if truthy (getItem tokenUserDataName st) then getItem tokenUserDataName st
  else VNull.

Definition set_currentUser (userData : value) (st : state) : state :=
  setItem tokenUserDataName userData st.

Definition signup (signupData : value) (st : state) : promise * state :=
  if negb (truthy signupData)
     || (negb (isObject signupData) && negb (isString signupData)) then
    (Rejected (failure "Signup data is required to signup." "NULL_DATA"), st)
  else if isObject signupData then
    if negb (truthy (read signupData "username"))
       && negb (truthy (read signupData "email")) then
      (Rejected (failure "Email or Username required to signup." "ID_REQUIRED"), st)
    else if negb (truthy (read signupData "password")) then
      (Rejected (failure "Password is required to signup." "PASS_REQUIRED"), st)
    else
      catch_
        (then_ (request_post (endpoint +:+ "/signup") signupData st)
           (fun response st1 =>
              if has response "account" then
                (Resolved (read response "account"), st1)
              else (Resolved response, st1)))
        (fun errRes st1 => (Rejected errRes, st1))
  else
    (* third party signup: the handlers pass the outcome on *)
    ProviderAuth_signup signupData st.

(** The account that [login] derives once the request has succeeded. *)
Definition userAccount (response : value) (st : state) : value :=
  if has response "account" then read response "account"
  else if truthy (token_data st) then
    if truthy (read (token_data st) "un") then
      VObj [("username", read (token_data st) "un");
            ("name", or_else (read (token_data st) "n") VNull);
            ("authrocketId", or_else (read (token_data st) "uid") VNull)]
    else token_data st
  else VObj [("token", token_string st)].

Definition login (loginData : value) (st : state) : promise * state :=
  if negb (truthy loginData)
     || (negb (isObject loginData) && negb (isString loginData)) then
    (Rejected (failure "Login data is required to login." "DATA_REQUIRED"), st)
  else if isObject loginData then
    if negb (truthy (read loginData "username"))
       && negb (truthy (read loginData "email")) then
      (Rejected (failure "Email or Username required to login." "ID_REQUIRED"), st)
    else if negb (truthy (read loginData "password"))
            || is_empty_string (read loginData "password") then
      (Rejected (failure "Password is required to login." "PASS_REQUIRED"), st)
    else
      catch_
        (then_ (request_put (endpoint +:+ "/login") loginData st)
           (fun response st1 =>
              if has response "data"
                 && has (read response "data") "status"
                 && loose_eq_num (read (read response "data") "status") 409
              then (Rejected (read response "data"), st1)
              else
                let st2 :=
                  if has response "token"
                  then token_set (read response "token") st1 else st1 in
                let account := userAccount response st2 in
                (Resolved account, setItem tokenUserDataName account st2)))
        (fun errRes st1 =>
           let reason : completion value :=
             status ← get errRes "status";
             if loose_eq_num status 409 || loose_eq_num status 400 then
               response ← get errRes "response"; get response "text"
             else Normal errRes in
           match reason with
           | Normal r => (Rejected r, st1)
           | Throw e => (Rejected e, st1)
           end)
  else
    (* provider login *)
    ProviderAuth_login loginData st.

Definition logout (st : state) : promise * state :=
  if negb (isLoggedIn st) then
    (Rejected (failure "No logged in account to log out." "NULL_ACCOUNT"), st)
  else
    catch_
      (then_ (request_put (endpoint +:+ "/logout") VUndefined st)
         (fun response st1 =>
            (Resolved response, token_delete (set_currentUser VNull st1))))
      (fun errRes st1 =>
         (Rejected errRes, token_delete (removeItem tokenUserDataName st1))).

Definition getCurrentUser (st : state) : promise * state :=
  if truthy (currentUser st) then (Resolved (currentUser st), st)
  else if negb (isLoggedIn st) then (Resolved VNull, st)
  else
    catch_
      (then_ (request_get (endpoint +:+ "/user") VUndefined st)
         (fun response st1 => (Resolved response, set_currentUser response st1)))
      (fun errRes st1 =>
         match get errRes "status" with
         | Normal status =>
             if loose_eq_num status 401 then (Resolved VNull, token_delete st1)
             else (Rejected errRes, st1)
         | Throw e => (Rejected e, st1)
         end).

(** [isInGroup] and [isInGroups] call each other; [fuel] bounds the
    depth of the calls, [None] means it ran out. *)
Fixpoint isInGroup_fuel (fuel : nat) (st : state) (checkGroups : value)
  : option (completion bool) :=
  match fuel with
  | O => None
  | S fuel' =>
      if negb (isLoggedIn st) then Some (Normal false)
      else if negb (truthy checkGroups) then Some (Normal false)
      else
        match checkGroups with
        | VStr groupName =>
            let groupsArray := split "," groupName in
            if (1 <? length groupsArray)%nat then
              isInGroups_fuel fuel' st (VArr (VStr <$> groupsArray))
            else
              Some (groups ← get (token_data st) "groups";
                    any (or_else groups (VArr [])) (name_matches groupName))
        | VArr _ => isInGroups_fuel fuel' st checkGroups
        | _ => Some (Normal false)
        end
  end
with isInGroups_fuel (fuel : nat) (st : state) (checkGroups : value)
  : option (completion bool) :=
  match fuel with
  | O => None
  | S fuel' =>
      if negb (isLoggedIn st) then Some (Normal false)
      else if negb (truthy checkGroups) then Some (Normal false)
      else
        match checkGroups with
        | VArr items =>
            match
              array_map
                (fun group =>
                   if isString group then isInGroup_fuel fuel' st group
                   else if has group "name" then
                     isInGroup_fuel fuel' st (read group "name")
                   else Some (Normal false))
                items
            with
            | None => None
            | Some (Throw e) => Some (Throw e)
            | Some (Normal results) =>
                Some (Normal (every (VBool <$> results) (VBool true)))
            end
        | VStr s =>
            let groupsArray := split "," s in
            if (1 <? length groupsArray)%nat then
              isInGroups_fuel fuel' st (VArr (VStr <$> groupsArray))
            else isInGroup_fuel fuel' st (default VUndefined (VStr <$> head groupsArray))
        | _ => Some (Normal false)
        end
  end.

(** Fuel that always suffices (lemmas [isInGroup_fuel_enough] and
    [isInGroups_fuel_enough] below): the two functions are total. *)
Definition fuel_for (v : value) : nat := 2 * rank v + 2.

Definition isInGroup (st : state) (checkGroups : value) : completion bool :=
  default (Normal false) (isInGroup_fuel (fuel_for checkGroups) st checkGroups).

Definition isInGroups (st : state) (checkGroups : value) : completion bool :=
  default (Normal false) (isInGroups_fuel (fuel_for checkGroups) st checkGroups).

End Facade.

(** The [status] field of the reason of a rejected promise. *)
Definition rejection_status (p : promise) : option value :=
  match p with
  | Rejected reason => Some (read reason "status")
  | _ => None
  end.

(** Fuel that suffices for [isInGroup], respectively [isInGroups]. *)
Definition bound_group (v : value) : nat :=
  (2 * rank v + (if isArray v then 2 else 1))%nat.

Definition bound_groups (v : value) : nat :=
  (2 * rank v + (if isArray v then 1 else 2))%nat.

(** [v == null]: [v] is [null] or [undefined]. *)
Definition nullish (v : value) : bool :=
  match v with VUndefined | VNull => true | _ => false end.


(** The error that [handleResponse] reports (lines 49-50 of [request.js]):
    the [error] field of the response body when there is one, the
    transport's error otherwise. *)
Definition reported_error (errorRes : value) : value :=
  if truthy (read errorRes "response")
     && truthy (read (read errorRes "response") "body")
  then read (read (read errorRes "response") "body") "error"
  else errorRes.

(** ** Further operations of the Session Facade ([index.js]) *)

(** A call that returns a promise, or throws before it returns one. *)
Definition call : Type := completion promise * state.

Definition returned (p : promise * state) : call := (Normal (fst p), snd p).

(** [f(...).then(..).catch(..)]: the handlers are attached when the call
    returned a promise; an exception thrown by the call passes them by. *)
Definition chain (c : call) (handlers : promise * state -> promise * state)
  : call :=
  match c with
  | (Normal p, st) => returned (handlers (p, st))
  | (Throw e, st) => (Throw e, st)
  end.

(** A call made by a promise handler: what it throws rejects the
    handler's promise. *)
Definition in_handler (c : call) : promise * state :=
  match c with
  | (Normal p, st) => (p, st)
  | (Throw e, st) => (Rejected e, st)
  end.

(** What lies outside the sources besides [Platform]. *)
Class Environment : Type := {
  (** [request.put(url, data)] for a [url] that is not a string: what
      superagent does with it depends on where it runs *)
  request_put_without_url : value -> value -> state -> call;
  (** [config.serverUrl], which the legacy client of [matter.js] builds
      its URLs from *)
  serverUrl : string
}.

(** The rejection records that carry a message only. *)
Definition refusal (message : string) : value :=
  VObj [("message", VStr message)].

Section Account.

Context `{Platform} `{E : Environment}.

(** [get urls] ([this.token] is the Token Manager itself, always truthy) *)
Definition urls (st : state) : value :=
  if truthy (token_data st) && truthy (read (token_data st) "username") then
    VObj [("update",
           VStr (endpoint +:+ "/account/"
                 +:+ ToString (read (token_data st) "username")));
          ("upload",
           VStr (endpoint +:+ "/account/"
                 +:+ ToString (read (token_data st) "username") +:+ "/upload"));
          ("recover", VStr (endpoint +:+ "/recover"))]
  else VObj [("recover", VStr (endpoint +:+ "/recover"))].

(** [request.put(url, data)] for a [url] read from [this.urls] *)
Definition request_put_to (url data : value) (st : state) : call :=
  match url with
  | VStr u => returned (request_put u data st)
  | _ => request_put_without_url url data st
  end.

Definition updateAccount (updateData : value) (st : state) : call :=
  if negb (isLoggedIn st) then
    (Normal (Rejected (refusal "Must be logged in to update account.")), st)
  else if negb (truthy updateData) then
    (Normal (Rejected (failure "Data required to update account." "NULL_DATA")),
     st)
  else
    chain (request_put_to (read (urls st) "update") updateData st)
      (fun p =>
         catch_
           (then_ p
              (fun response st1 =>
                 (Resolved response, set_currentUser response st1)))
           (fun errRes st1 => (Rejected errRes, st1))).

(** [uploadImage]: the unused [uploadUrl] is still computed, and reading
    [this.token.data.username] throws when there are no decoded claims. *)
Definition uploadImage (fileData : value) (st : state) : call :=
  if negb (isLoggedIn st) then
    (Normal (Rejected (refusal "Must be logged in to upload image.")), st)
  else if negb (truthy fileData) then
    (Normal (Rejected (failure "Data required to update profile." "NULL_DATA")),
     st)
  else
    match get (token_data st) "username" with
    | Throw e => (Throw e, st)
    | Normal _ =>
        chain (request_put_to (read (urls st) "upload") fileData st)
          (fun p =>
             catch_
               (then_ p
                  (fun response st1 =>
                     (Resolved response, set_currentUser response st1)))
               (fun errRes st1 => (Rejected errRes, st1)))
    end.

Definition uploadAccountImage (fileData : value) (st : state) : call :=
  chain (uploadImage fileData st)
    (fun p =>
       then_ p
         (fun imgUrl st1 =>
            in_handler
              (updateAccount (VObj [("image", VObj [("url", imgUrl)])]) st1))).

Definition changePassword (newPassword : value) (st : state) : call :=
  if negb (isLoggedIn st) then
    (Normal (Rejected (refusal "Must be logged in to change password.")), st)
  else
    chain (request_put_to (read (urls st) "changePassword") newPassword st)
      (fun p =>
         catch_ (then_ p (fun response st1 => (Resolved response, st1)))
           (fun errRes st1 => (Rejected errRes, st1))).

(** [recoverAccount]: [this.urls.recover] is a string in every state. *)
Definition recoverAccount (accountData : value) (st : state)
  : promise * state :=
  if negb (truthy accountData)
     || (negb (isString accountData) && negb (isObject accountData)) then
    (Rejected (refusal "Account data is required to recover an account."), st)
  else
    let account :=
      match accountData with
      | VStr s =>
          if contains_char "@" s then VObj [("email", accountData)]
          else VObj [("username", accountData)]
      | _ => accountData
      end in
    catch_
      (then_ (request_post (ToString (read (urls st) "recover")) account st)
         (fun response st1 => (Resolved response, st1)))
      (fun errRes st1 => (Rejected errRes, st1)).

End Account.

(** ** The legacy client ([matter.js]) *)

Module Legacy.

(** What the legacy class works on: the state of the Request Client, the
    items of [window.localStorage] ([None] where there is no [window]),
    and the module variables [user] and [token]. The class writes to
    [window.localStorage] itself, past the Environment Storage; how the
    two stores are connected lies outside the sources, so an operation
    changes [client] only through the requests it sends. *)
Record session : Type := mkSession {
  client : state;
  localStorage : option (gmap string string);
  user : value;
  token : value
}.

Definition ReferenceError (message : string) : value :=
  VObj [("name", VStr "ReferenceError"); ("message", VStr message)].

(** A call of the Request Client from the legacy class. *)
Definition requested (p : promise * state) (s : session) : promise * session :=
  (fst p, mkSession (snd p) (localStorage s) (user s) (token s)).

Definition then_ (p : promise * session)
    (onFulfilled : value -> session -> promise * session) : promise * session :=
  match p with
  | (Resolved v, s) => onFulfilled v s
  | _ => p
  end.

Definition catch_ (p : promise * session)
    (onRejected : value -> session -> promise * session) : promise * session :=
  match p with
  | (Rejected e, s) => onRejected e s
  | _ => p
  end.

(** [window.localStorage.getItem(key)] and [.setItem(key, value)] on the
    items of a storage; [setItem] stores the string form of the value. *)
Definition getItem (key : string) (items : gmap string string) : value :=
  match items !! key with
  | Some text => VStr text
  | None => VNull
  end.

Definition setItem (key : string) (v : value) (items : gmap string string)
  : gmap string string :=
  <[key := ToString v]> items.

Section Client.

Context `{Platform} `{E : Environment}.

Definition signup (signupData : value) (s : session) : promise * session :=
  catch_
    (then_ (requested (request_post (serverUrl +:+ "/signup") signupData (client s)) s)
       (fun response s1 => (Resolved VUndefined, s1)))
    (fun errRes s1 => (Rejected errRes, s1)).

(** [login]: missing credentials are only logged. *)
Definition login (loginData : value) (s : session) : promise * session :=
  catch_
    (then_ (requested (request_put (serverUrl +:+ "/login") loginData (client s)) s)
       (fun response s1 =>
          if has response "data"
             && has (read response "data") "status"
             && loose_eq_num (read (read response "data") "status") 409
          then (Rejected (read response "data"), s1)
          else
            match data ← get response "data"; get data "token" with
            | Throw e => (Rejected e, s1)
            | Normal t =>
                let s2 := mkSession (client s1) (localStorage s1) (user s1) t in
                match localStorage s2 with
                | None => (Rejected (ReferenceError "window is not defined"), s2)
                | Some items =>
                    (Resolved (read response "data"),
                     match getItem tokenName items with
                     | VNull =>
                         mkSession (client s2)
                           (Some (setItem tokenName t items)) (user s2) (token s2)
                     | _ => s2
                     end)
                end
            end))
    (fun errRes s1 =>
       match get errRes "status" with
       | Throw e => (Rejected e, s1)
       | Normal status =>
           if loose_eq_num status 409
           then (Rejected (VStr "Account not found"), s1)
           else (Rejected errRes, s1)
       end).

(** [logout]: [typeof x != null] compares a string with [null] and is
    always true. *)
Definition logout (s : session) : promise * session :=
  catch_
    (then_ (requested (request_put (serverUrl +:+ "/logout") (VObj []) (client s)) s)
       (fun response s1 =>
          let s2 :=
            match localStorage s1 with
            | Some items =>
                mkSession (client s1) (Some (setItem tokenName VNull items))
                  (user s1) (token s1)
            | None => s1
            end in
          match get response "body" with
          | Normal body => (Resolved body, s2)
          | Throw e => (Rejected e, s2)
          end))
    (fun errRes s1 => (Rejected errRes, s1)).

Definition getCurrentUser (s : session) : promise * session :=
  catch_
    (then_ (requested (request_get (serverUrl +:+ "/user") (VObj []) (client s)) s)
       (fun response s1 =>
          match get response "data" with
          | Normal data =>
              (Resolved data,
               mkSession (client s1) (localStorage s1) data (token s1))
          | Throw e => (Rejected e, s1)
          end))
    (fun errRes s1 => (Rejected errRes, s1)).

(** [getAuthToken]: [typeof x == 'undefined'] compares with a string
    that [getItem], which gives a string or [null], never has. *)
Definition getAuthToken (s : session) : value :=
  match localStorage s with
  | None => VNull
  | Some items => getItem tokenName items
  end.

End Client.

End Legacy.

(** ** Sample data *)

Module Sample.

Definition quote (s : string) : string :=
  String "034" s +:+ String "034" EmptyString.

(** The claims [{groups: [{name: "admins"}]}] *)
Definition admin_claims : value :=
  VObj [("groups", VArr [VObj [("name", VStr "admins")]])].

(** Legacy claims [{un: "bob", n: "Bob"}] *)
Definition legacy_claims : value :=
  VObj [("un", VStr "bob"); ("n", VStr "Bob")].

(** The token ["T"] carries [admin_claims], ["L"] the legacy claims;
    any other string is malformed. *)
Definition sample_decode (s : string) : value :=
  if String.eqb s "T" then admin_claims
  else if String.eqb s "L" then legacy_claims
  else VNull.

(** A platform around a given network. *)
Definition platform (net : Request -> value * value) : Platform :=
  {| tokenName := "token";
     tokenUserDataName := "currentUser";
     decode := sample_decode;
     endpoint := "http://localhost:4000/apps/demo";
     transport := net;
     ProviderAuth_signup := fun _ st => (Rejected (VStr "no provider"), st);
     ProviderAuth_login := fun _ st => (Rejected (VStr "no provider"), st) |}.

(** The server answers every request with the given body. *)
Definition answers (body : value) : Request -> value * value :=
  fun _ => (VNull, VObj [("status", num 200); ("body", body)]).

(** Every request fails with the given error (superagent passes the
    error's response, if any, as the second argument). *)
Definition fails (errorRes : value) : Request -> value * value :=
  fun _ => (errorRes, read errorRes "response").

(** The error superagent builds for a 401 response without a body. *)
Definition unauthorized : value :=
  VObj [("message", VStr "Unauthorized"); ("status", num 401);
        ("response", VObj [("status", num 401); ("body", VNull)])].

(** An anonymous client, and one holding the token ["T"] and a cached
    account. *)
Definition anonymous : state := mkState None ∅ [].

Definition logged_in : state :=
  mkState (Some (VStr "T"))
    (<["currentUser" := VObj [("username", VStr "ann")]]>
       (<["token" := VStr "T"]> ∅)) [].

(** Holding the token ["T"], no cached account. *)
Definition fresh_login : state :=
  mkState (Some (VStr "T")) (<["token" := VStr "T"]> ∅) [].

(** The JSON texts of the objects [{a: 1}] and [{token: "L"}]. *)
Definition json_a1 : string := "{" +:+ quote "a" +:+ ":1}".

Definition json_token_L : string :=
  "{" +:+ quote "token" +:+ ":" +:+ quote "L" +:+ "}".

(** The login data [{username: "bob", password: "secret"}]. *)
Definition bob : value :=
  VObj [("username", VStr "bob"); ("password", VStr "secret")].

(** The error of a request that got no response. *)
Definition server_down : value :=
  VObj [("message", VStr "Internal Server Error"); ("status", num 500)].

(** The error superagent builds for a 500 response whose JSON body,
    [{message: "Internal Server Error"}], has no [error] field. *)
Definition server_error : value :=
  VObj [("message", VStr "Internal Server Error"); ("status", num 500);
        ("response",
         VObj [("status", num 500);
               ("body", VObj [("message", VStr "Internal Server Error")])])].

(** The platforms the examples run on: every request answered with the
    text [ok]; with the JSON text of [{token: "L"}]; failing with
    [server_down]; failing with [unauthorized]; failing with
    [server_error]. *)
Definition ok_platform : Platform := platform (answers (VStr "ok")).

Definition token_platform : Platform := platform (answers (VStr json_token_L)).

Definition down_platform : Platform := platform (fails server_down).

Definition unauthorized_platform : Platform := platform (fails unauthorized).

Definition error_platform : Platform := platform (fails server_error).

End Sample.

(** ** Sample data for the account operations *)

Module Account_sample.

(** The claims [{username: "ann"}] *)
Definition account_claims : value := VObj [("username", VStr "ann")].

(** The token ["U"] carries [account_claims]; the other tokens are
    those of [Sample]. *)
Definition account_decode (s : string) : value :=
  if String.eqb s "U" then account_claims else Sample.sample_decode s.

Definition platform (net : Request -> value * value) : Platform :=
  {| tokenName := "token";
     tokenUserDataName := "currentUser";
     decode := account_decode;
     endpoint := "http://localhost:4000/apps/demo";
     transport := net;
     ProviderAuth_signup := fun _ st => (Rejected (VStr "no provider"), st);
     ProviderAuth_login := fun _ st => (Rejected (VStr "no provider"), st) |}.

(** In a browser a request without a URL goes to the relative URL
    [undefined]. *)
Definition browser (P : Platform) : Environment :=
  {| request_put_without_url :=
       fun url data st => returned (request_put (ToString url) data st);
     serverUrl := "http://localhost:4000" |}.

(** Holding the token ["U"]; holding a token that does not decode. *)
Definition ann_session : state :=
  mkState (Some (VStr "U")) (<["token" := VStr "U"]> ∅) [].

Definition opaque_session : state :=
  mkState (Some (VStr "?")) (<["token" := VStr "?"]> ∅) [].

(** Every request answered with the text [ok]; every request failing
    with [Sample.server_down]. *)
Definition ok_platform : Platform := platform (Sample.answers (VStr "ok")).

Definition down_platform : Platform := platform (Sample.fails Sample.server_down).

End Account_sample.

(** ** Sample data for the group checks *)

Module Group_sample.

(** Claims with a group whose name is the empty string, and claims with a
    group whose name is the number 5. *)
Definition unnamed_claims : value :=
  VObj [("groups", VArr [VObj [("name", VStr "")]])].

Definition numbered_claims : value :=
  VObj [("groups", VArr [VObj [("name", num 5)]])].

(** The token ["E"] carries [unnamed_claims], ["N"] carries
    [numbered_claims]; the other tokens are those of [Sample]. *)
Definition group_decode (s : string) : value :=
  if String.eqb s "E" then unnamed_claims
  else if String.eqb s "N" then numbered_claims
  else Sample.sample_decode s.

Definition platform : Platform :=
  {| tokenName := "token";
     tokenUserDataName := "currentUser";
     decode := group_decode;
     endpoint := "http://localhost:4000/apps/demo";
     transport := Sample.answers (VStr "ok");
     ProviderAuth_signup := fun _ st => (Rejected (VStr "no provider"), st);
     ProviderAuth_login := fun _ st => (Rejected (VStr "no provider"), st) |}.


End Group_sample.

(** ** Auxiliary facts *)

(** *** The parser's fuel *)

Module JSON_facts.

Import JSON.

Local Open Scope char_scope.

Lemma drop_whitespace_length cs :
  (length (drop_whitespace cs) <= length cs)%nat.
Proof.
  induction cs as [|c cs IH]; simpl; [lia|].
  destruct (is_whitespace c); simpl; lia.
Qed.

Lemma token_length c cs r : token c cs = Some r -> (length r < length cs)%nat.
Proof.
  unfold token. pose proof (drop_whitespace_length cs) as Hd.
  destruct (drop_whitespace cs) as [|c' r']; [discriminate|].
  destruct (Ascii.eqb c' c); [|discriminate].
  intros [= <-]. simpl in Hd. lia.
Qed.

Lemma strip_prefix_length p cs r :
  strip_prefix p cs = Some r -> (length r + length p = length cs)%nat.
Proof.
  revert cs. induction p as [|a p IH]; intros cs; simpl.
  - intros [= <-]. lia.
  - destruct cs as [|c cs]; [discriminate|].
    destruct (Ascii.eqb a c); [|discriminate].
    intros Hs. apply IH in Hs. simpl. lia.
Qed.

Lemma string_body_length cs s r :
  string_body cs = Some (s, r) -> (length r < length cs)%nat.
Proof.
  remember (length cs) as n eqn:Hn. revert cs s r Hn.
  induction n as [n IH] using lt_wf_ind. intros cs s r Hn.
  destruct cs as [|c rest]; [discriminate|]. simpl in Hn. simpl string_body.
  destruct (Ascii.eqb c "034"); cbv iota; [intros [= _ <-]; lia|].
  destruct (Ascii.eqb c "\"); cbv iota.
  - destruct rest as [|e rest1]; [discriminate|].
    destruct (Ascii.eqb e "u"); cbv iota.
    + destruct rest1 as [|h1 [|h2 [|h3 [|h4 rest2]]]]; try discriminate.
      destruct (_ && _); [|discriminate].
      destruct (string_body rest2) as [[s' r']|] eqn:Hb; [|discriminate].
      simpl. intros [= _ <-].
      apply (IH (length rest2)) in Hb; simpl in *; lia.
    + destruct (escape e); [|discriminate]. simpl.
      destruct (string_body rest1) as [[s' r']|] eqn:Hb; [|discriminate].
      simpl. intros [= _ <-].
      apply (IH (length rest1)) in Hb; simpl in *; lia.
  - destruct (code c <? 32)%Z; [discriminate|].
    destruct (string_body rest) as [[s' r']|] eqn:Hb; [|discriminate].
    simpl. intros [= _ <-].
    apply (IH (length rest)) in Hb; simpl in *; lia.
Qed.

Lemma span_digits_length cs :
  (length (fst (span_digits cs)) + length (snd (span_digits cs))
   = length cs)%nat.
Proof.
  induction cs as [|c cs IH]; simpl; [reflexivity|].
  destruct (is_digit c); [|reflexivity].
  destruct (span_digits cs); simpl in *. lia.
Qed.

Lemma scan_exponent_length cs :
  (length (snd (scan_exponent cs)) <= length cs)%nat.
Proof.
  unfold scan_exponent. destruct cs as [|c cs1]; [simpl; lia|].
  destruct ((code c =? 101) || (code c =? 69))%Z; [|simpl; lia].
  assert (Hd : forall l, (length (snd (span_digits l)) <= length l)%nat).
  { intros l. pose proof (span_digits_length l). lia. }
  destruct cs1 as [|s r].
  - simpl. lia.
  - destruct (code s =? 43)%Z.
    + pose proof (Hd r). destruct (span_digits r) as [[|d ds] rest];
        simpl in *; lia.
    + destruct (code s =? 45)%Z.
      * pose proof (Hd r). destruct (span_digits r) as [[|d ds] rest];
          simpl in *; lia.
      * pose proof (Hd (s :: r)).
        destruct (span_digits (s :: r)) as [[|d ds] rest]; simpl in *; lia.
Qed.

Lemma number_length cs v r :
  number cs = Some (v, r) -> (length r < length cs)%nat.
Proof.
  unfold number.
  set (p0 := match cs with
             | c :: r0 => if Ascii.eqb c "-" then ((-1)%Z, r0) else (1%Z, cs)
             | [] => (1%Z, cs)
             end).
  assert (H0 : (length (snd p0) <= length cs)%nat).
  { unfold p0. destruct cs as [|c r0]; simpl; [lia|].
    destruct (Ascii.eqb c "-"); simpl; lia. }
  destruct p0 as [sgn cs0]. simpl in H0.
  set (o1 := match cs0 with
             | c :: r0 =>
                 if Ascii.eqb c "0" then Some ([c], r0)
                 else match span_digits cs0 with
                      | ([], _) => None
                      | p => Some p
                      end
             | [] => None
             end).
  assert (H1 : forall ip cs1, o1 = Some (ip, cs1) ->
                              (length cs1 < length cs0)%nat).
  { unfold o1. intros ip cs1. destruct cs0 as [|c r0]; [discriminate|].
    destruct (Ascii.eqb c "0").
    - intros [= _ <-]. simpl. lia.
    - pose proof (span_digits_length (c :: r0)) as Hs.
      destruct (span_digits (c :: r0)) as [[|d ds] rest]; [discriminate|].
      intros [= _ <-]. simpl in *. lia. }
  destruct o1 as [[ip cs1]|]; [|discriminate].
  specialize (H1 _ _ eq_refl). simpl.
  set (p2 := match cs1 with
             | c :: r0 =>
                 if Ascii.eqb c "." then
                   match span_digits r0 with
                   | ([], _) => ([], cs1)
                   | p => p
                   end
                 else ([], cs1)
             | [] => ([], cs1)
             end).
  assert (H2 : (length (snd p2) <= length cs1)%nat).
  { unfold p2. destruct cs1 as [|c r0]; simpl; [lia|].
    destruct (Ascii.eqb c "."); simpl; [|lia].
    pose proof (span_digits_length r0) as Hs.
    destruct (span_digits r0) as [[|d ds] rest]; simpl in *; lia. }
  destruct p2 as [fp cs2]. simpl in H2.
  pose proof (scan_exponent_length cs2) as H3.
  destruct (scan_exponent cs2) as [x cs3]. simpl in H3.
  destruct (normalize _ _). intros [= _ <-]. lia.
Qed.

Lemma literal_length cs v r :
  literal cs = Some (v, r) -> (length r < length cs)%nat.
Proof.
  unfold literal.
  destruct (strip_prefix (list_ascii_of_string "true") cs) as [r1|] eqn:H1.
  { intros [= _ <-]. apply strip_prefix_length in H1. simpl in H1. lia. }
  destruct (strip_prefix (list_ascii_of_string "false") cs) as [r2|] eqn:H2.
  { intros [= _ <-]. apply strip_prefix_length in H2. simpl in H2. lia. }
  destruct (strip_prefix (list_ascii_of_string "null") cs) as [r3|] eqn:H3.
  { intros [= _ <-]. apply strip_prefix_length in H3. simpl in H3. lia. }
  apply number_length.
Qed.

(** More fuel never changes the result of the parser. *)
Lemma json_fuel_mono n :
  (forall cs r m, (n <= m)%nat ->
     json_value n cs = Some r -> json_value m cs = Some r)
  /\ (forall cs acc r m, (n <= m)%nat ->
        json_elements n cs acc = Some r -> json_elements m cs acc = Some r)
  /\ (forall cs acc r m, (n <= m)%nat ->
        json_members n cs acc = Some r -> json_members m cs acc = Some r).
Proof.
  induction n as [|n (IHv & IHe & IHm)];
    [repeat split; intros; discriminate|].
  repeat split; intros cs; intros; (destruct m as [|m]; [lia|]);
    simpl in *.
  - destruct (token "{" cs) as [r1|].
    { destruct (token "}" r1); [assumption|]. apply (IHm _ _ _ m) in H0; [assumption|lia]. }
    destruct (token "[" cs) as [r1|].
    { destruct (token "]" r1); [assumption|]. apply (IHe _ _ _ m) in H0; [assumption|lia]. }
    assumption.
  - destruct (json_value n cs) as [[v r1]|] eqn:Hv; [|discriminate].
    rewrite (IHv _ _ m ltac:(lia) Hv). simpl in *.
    destruct (token "," r1); [|assumption].
    apply (IHe _ _ _ m) in H0; [assumption|lia].
  - destruct (token "034" cs) as [r0|]; [|discriminate]. simpl in *.
    destruct (string_body r0) as [[k r1]|]; [|discriminate]. simpl in *.
    destruct (token ":" r1) as [r2|]; [|discriminate]. simpl in *.
    destruct (json_value n r2) as [[v r3]|] eqn:Hv; [|discriminate].
    rewrite (IHv _ _ m ltac:(lia) Hv). simpl in *.
    destruct (token "," r3); [|assumption].
    apply (IHm _ _ _ m) in H0; [assumption|lia].
Qed.


Ltac fuel_succ k :=
  match goal with
  | |- context [json_value ?f _] =>
      destruct f as [|k] eqn:?; [lia|]
  | |- context [json_elements ?f _ _] =>
      destruct f as [|k] eqn:?; [lia|]
  | |- context [json_members ?f _ _] =>
      destruct f as [|k] eqn:?; [lia|]
  end.

(** The parser consumes input, and twice the number of characters a
    value takes is fuel enough to read it. *)
Lemma json_fuel_adequate n :
  (forall cs v rest, json_value n cs = Some (v, rest) ->
     (length rest < length cs)%nat
     /\ json_value (2 * (length cs - length rest)) cs = Some (v, rest))
  /\ (forall cs acc v rest, json_elements n cs acc = Some (v, rest) ->
        (length rest < length cs)%nat
        /\ json_elements (2 * (length cs - length rest) + 1) cs acc
           = Some (v, rest))
  /\ (forall cs acc v rest, json_members n cs acc = Some (v, rest) ->
        (length rest < length cs)%nat
        /\ json_members (2 * (length cs - length rest) + 1) cs acc
           = Some (v, rest)).
Proof.
  induction n as [|n (IHv & IHe & IHm)];
    [repeat split; intros; discriminate|].
  split; [|split].
  - intros cs v rest Hp. simpl in Hp.
    destruct (token "{" cs) as [r1|] eqn:Ho.
    { pose proof (token_length _ _ _ Ho) as Hl1.
      destruct (token "}" r1) as [r2|] eqn:Hc.
      - pose proof (token_length _ _ _ Hc) as Hl2.
        injection Hp as <- <-. split; [lia|].
        fuel_succ k. simpl. rewrite Ho, Hc. reflexivity.
      - apply IHm in Hp as [Hl Hm]. split; [lia|].
        fuel_succ k. simpl. rewrite Ho, Hc.
        eapply (proj2 (proj2 (json_fuel_mono _))); [|exact Hm]. lia. }
    destruct (token "[" cs) as [r1|] eqn:Ha.
    { pose proof (token_length _ _ _ Ha) as Hl1.
      destruct (token "]" r1) as [r2|] eqn:Hc.
      - pose proof (token_length _ _ _ Hc) as Hl2.
        injection Hp as <- <-. split; [lia|].
        fuel_succ k. simpl. rewrite Ho, Ha, Hc. reflexivity.
      - apply IHe in Hp as [Hl He]. split; [lia|].
        fuel_succ k. simpl. rewrite Ho, Ha, Hc.
        eapply (proj1 (proj2 (json_fuel_mono _))); [|exact He]. lia. }
    destruct (token "034" cs) as [r1|] eqn:Hq.
    { pose proof (token_length _ _ _ Hq) as Hl1.
      destruct (string_body r1) as [[s r2]|] eqn:Hs; [|discriminate].
      pose proof (string_body_length _ _ _ Hs) as Hl2.
      simpl in Hp. injection Hp as <- <-. split; [lia|].
      fuel_succ k. simpl. rewrite Ho, Ha, Hq, Hs. reflexivity. }
    pose proof (literal_length _ _ _ Hp) as Hl.
    pose proof (drop_whitespace_length cs) as Hd.
    split; [lia|].
    fuel_succ k. simpl. rewrite Ho, Ha, Hq. exact Hp.
  - intros cs acc v rest Hp. simpl in Hp.
    destruct (json_value n cs) as [[v1 r1]|] eqn:Hv; [|discriminate].
    apply IHv in Hv as [Hl1 Hv]. simpl in Hp.
    assert (Hv' : forall k, (2 * (length cs - length r1) <= k)%nat ->
                            json_value k cs = Some (v1, r1)).
    { intros k Hk. eapply (proj1 (json_fuel_mono _)); [|exact Hv]. lia. }
    destruct (token "," r1) as [r2|] eqn:Hc.
    + pose proof (token_length _ _ _ Hc) as Hl2.
      apply IHe in Hp as [Hl He]. split; [lia|].
      fuel_succ k. simpl. rewrite (Hv' k) by lia. simpl. rewrite Hc.
      eapply (proj1 (proj2 (json_fuel_mono _))); [|exact He]. lia.
    + destruct (token "]" r1) as [r2|] eqn:Hb; [|discriminate].
      pose proof (token_length _ _ _ Hb) as Hl2.
      simpl in Hp. injection Hp as <- <-. split; [lia|].
      fuel_succ k. simpl. rewrite (Hv' k) by lia. simpl.
      rewrite Hc, Hb. reflexivity.
  - intros cs acc v rest Hp. simpl in Hp.
    destruct (token "034" cs) as [r0|] eqn:Hq; [|discriminate].
    pose proof (token_length _ _ _ Hq) as Hl0. simpl in Hp.
    destruct (string_body r0) as [[key r1]|] eqn:Hs; [|discriminate].
    pose proof (string_body_length _ _ _ Hs) as Hls. simpl in Hp.
    destruct (token ":" r1) as [r2|] eqn:Hcol; [|discriminate].
    pose proof (token_length _ _ _ Hcol) as Hlc. simpl in Hp.
    destruct (json_value n r2) as [[v1 r3]|] eqn:Hv; [|discriminate].
    apply IHv in Hv as [Hl1 Hv]. simpl in Hp.
    assert (Hv' : forall k, (2 * (length r2 - length r3) <= k)%nat ->
                            json_value k r2 = Some (v1, r3)).
    { intros k Hk. eapply (proj1 (json_fuel_mono _)); [|exact Hv]. lia. }
    destruct (token "," r3) as [r4|] eqn:Hc.
    + pose proof (token_length _ _ _ Hc) as Hl2.
      apply IHm in Hp as [Hl Hm]. split; [lia|].
      fuel_succ k. simpl. rewrite Hq. simpl. rewrite Hs. simpl.
      rewrite Hcol. simpl. rewrite (Hv' k) by lia. simpl. rewrite Hc.
      eapply (proj2 (proj2 (json_fuel_mono _))); [|exact Hm]. lia.
    + destruct (token "}" r3) as [r4|] eqn:Hb; [|discriminate].
      pose proof (token_length _ _ _ Hb) as Hl2.
      simpl in Hp. injection Hp as <- <-. split; [lia|].
      fuel_succ k. simpl. rewrite Hq. simpl. rewrite Hs. simpl.
      rewrite Hcol. simpl. rewrite (Hv' k) by lia. simpl.
      rewrite Hc, Hb. reflexivity.
Qed.

(** The fuel [parse_text] gives the parser loses nothing: whatever any
    amount of fuel reads, it reads. *)
Lemma parse_text_fuel text n r :
  json_value n (list_ascii_of_string text) = Some r ->
  json_value (2 * length (list_ascii_of_string text) + 2)
    (list_ascii_of_string text) = Some r.
Proof.
  destruct r as [v rest]. intros Hp.
  apply (proj1 (json_fuel_adequate n)) in Hp as [Hl Hp].
  eapply (proj1 (json_fuel_mono _)); [|exact Hp]. lia.
Qed.

End JSON_facts.

Lemma split_not_nil sep s : split sep s <> [].
Proof.
  destruct s as [|c s]; simpl; [discriminate|].
  destruct (Ascii.eqb c sep); [discriminate|].
  destruct (split sep s); discriminate.
Qed.

Lemma split_free sep s : contains_char sep s = false -> split sep s = [s].
Proof.
  induction s as [|c s IH]; simpl; [reflexivity|].
  intros Hc. apply orb_false_iff in Hc as [Hc Hs].
  rewrite Hc, (IH Hs). reflexivity.
Qed.

Lemma split_has sep s :
  contains_char sep s = true -> (1 < length (split sep s))%nat.
Proof.
  induction s as [|c s IH]; simpl; [discriminate|].
  destruct (Ascii.eqb c sep) eqn:Hc; simpl.
  - intros _. pose proof (split_not_nil sep s).
    destruct (split sep s); [congruence | simpl; lia].
  - intros Hs. specialize (IH Hs).
    destruct (split sep s); simpl in *; lia.
Qed.

Lemma split_pieces sep s :
  Forall (fun p => contains_char sep p = false) (split sep s).
Proof.
  induction s as [|c s IH]; simpl.
  - repeat constructor.
  - destruct (Ascii.eqb c sep) eqn:Hc.
    + constructor; [reflexivity | exact IH].
    + destruct (split sep s) as [|p ps].
      * repeat constructor. simpl. rewrite Hc. reflexivity.
      * inversion IH; subst. constructor; [|assumption].
        simpl. rewrite Hc. assumption.
Qed.

Lemma rank_elem x items : In x items -> (rank x < rank (VArr items))%nat.
Proof.
  simpl. induction items as [|y l IH]; simpl; [tauto|].
  intros [->|Hin]; [lia|]. specialize (IH Hin). lia.
Qed.

Lemma rank_field k fields v :
  lookup_field k fields = Some v -> (rank v < rank (VObj fields))%nat.
Proof.
  simpl. induction fields as [|[k' y] l IH]; simpl; [discriminate|].
  destruct (String.eqb k k').
  - intros [= ->]. lia.
  - intros Hl. specialize (IH Hl). lia.
Qed.

Lemma rank_pieces ps :
  Forall (fun p => contains_char "," p = false) ps ->
  rank (VArr (VStr <$> ps)) = 1%nat.
Proof.
  induction 1 as [|p l Hp _ IH]; [reflexivity|].
  change (rank (VArr (VStr <$> p :: l)))
    with (S (Nat.max (rank (VStr p)) (Nat.pred (rank (VArr (VStr <$> l)))))).
  rewrite IH. simpl. rewrite Hp. reflexivity.
Qed.

Lemma has_name_object x :
  isString x = false -> has x "name" = true ->
  exists fields,
    x = VObj fields /\ lookup_field "name" fields = Some (read x "name").
Proof.
  unfold has, read. intros Hs Hh. apply bool_decide_eq_true in Hh as [v Hv].
  destruct x; try discriminate; try (vm_compute in Hv; discriminate).
  exists fields. simpl in *. rewrite Hv. auto.
Qed.

Lemma array_map_mono (f g : value -> option (completion bool)) l r :
  (forall x r', In x l -> f x = Some r' -> g x = Some r') ->
  array_map f l = Some r -> array_map g l = Some r.
Proof.
  revert r. induction l as [|x l IH]; simpl; intros r Hfg; [auto|].
  destruct (f x) as [[b|e]|] eqn:Hfx; [| |discriminate].
  - rewrite (Hfg x _ (or_introl eq_refl) Hfx).
    destruct (array_map f l) as [[bs|e]|] eqn:Hl; [| |discriminate].
    + rewrite (IH _ (fun y r' Hy => Hfg y r' (or_intror Hy)) eq_refl). auto.
    + rewrite (IH _ (fun y r' Hy => Hfg y r' (or_intror Hy)) eq_refl). auto.
  - rewrite (Hfg x _ (or_introl eq_refl) Hfx). auto.
Qed.

Lemma array_map_is_Some (f : value -> option (completion bool)) l :
  (forall x, In x l -> is_Some (f x)) -> is_Some (array_map f l).
Proof.
  induction l as [|x l IH]; simpl; intros Hf; [eauto|].
  destruct (Hf x (or_introl eq_refl)) as [[b|e] ->]; [|eauto].
  destruct IH as [[bs|e] ->]; eauto.
Qed.

Lemma array_map_results f (g : value -> completion bool) l :
  (forall x, In x l -> f x = Some (g x)) ->
  array_map f l = Some (map_results g l).
Proof.
  induction l as [|x l IH]; simpl; intros Hf; [reflexivity|].
  rewrite (Hf x (or_introl eq_refl)).
  destruct (g x) as [b|e]; [|reflexivity].
  rewrite IH by auto. simpl. destruct (map_results g l); reflexivity.
Qed.

Section Fuel.

Context `{Platform}.

(** More fuel never changes an answer. *)
Lemma fuel_mono n st :
  (forall v r m, (n <= m)%nat -> isInGroup_fuel n st v = Some r ->
                 isInGroup_fuel m st v = Some r) /\
  (forall v r m, (n <= m)%nat -> isInGroups_fuel n st v = Some r ->
                 isInGroups_fuel m st v = Some r).
Proof.
  induction n as [|n [IHg IHgs]]; [split; intros; discriminate|].
  split; intros v r m Hm; (destruct m as [|m]; [lia|]); simpl.
  - destruct (negb (isLoggedIn st)); [auto|].
    destruct (negb (truthy v)); [auto|].
    destruct v; auto.
    + destruct (1 <? length (split "," s))%nat; auto.
      apply IHgs. lia.
    + apply IHgs. lia.
  - destruct (negb (isLoggedIn st)); [auto|].
    destruct (negb (truthy v)); [auto|].
    destruct v; auto.
    + destruct (1 <? length (split "," s))%nat.
      * apply IHgs. lia.
      * apply IHg. lia.
    + match goal with |- context [array_map ?f items] => set (F := f) end.
      match goal with |- context [array_map ?f items] =>
        lazymatch f with F => fail | _ => set (G := f) end end.
      destruct (array_map F items) as [c|] eqn:HF; [|discriminate].
      rewrite (array_map_mono F G items c); [auto| |exact HF].
      intros x r' _. unfold F, G.
      destruct (isString x); [apply IHg; lia|].
      destruct (has x "name"); [apply IHg; lia|auto].
Qed.

(** The calls terminate: with fuel above the bound there is an answer. *)
Lemma fuel_total n st :
  (forall v, (bound_group v <= n)%nat -> is_Some (isInGroup_fuel n st v)) /\
  (forall v, (bound_groups v <= n)%nat -> is_Some (isInGroups_fuel n st v)).
Proof.
  induction n as [|n [IHg IHgs]].
  { split; intros v; unfold bound_group, bound_groups;
      destruct (isArray v); lia. }
  assert (Hsplit : forall s, (3 <= n)%nat ->
            is_Some (isInGroups_fuel n st (VArr (VStr <$> split "," s)))).
  { intros s Hn. apply IHgs. unfold bound_groups.
    rewrite rank_pieces by apply split_pieces. simpl. lia. }
  split; intros v Hb; simpl.
  - destruct (negb (isLoggedIn st)); [eauto|].
    destruct (negb (truthy v)); [eauto|].
    destruct v; eauto.
    + destruct (1 <? length (split "," s))%nat eqn:Hlen; [|eauto].
      apply Hsplit. unfold bound_group in Hb. simpl in Hb.
      destruct (contains_char "," s) eqn:Hc; [lia|].
      rewrite (split_free _ _ Hc) in Hlen. discriminate.
    + apply IHgs. unfold bound_group, bound_groups in *. simpl in *. lia.
  - destruct (negb (isLoggedIn st)); [eauto|].
    destruct (negb (truthy v)); [eauto|].
    destruct v; eauto.
    + unfold bound_groups in Hb. simpl in Hb.
      destruct (1 <? length (split "," s))%nat eqn:Hlen.
      * apply Hsplit.
        destruct (contains_char "," s) eqn:Hc; [lia|].
        rewrite (split_free _ _ Hc) in Hlen. discriminate.
      * apply IHg. pose proof (split_pieces "," s) as Hp.
        destruct (split "," s) as [|p ps]; simpl; unfold bound_group; simpl.
        -- lia.
        -- inversion Hp as [|? ? Hp1 _]; subst. rewrite Hp1. lia.
    + match goal with |- context [array_map ?f items] => set (F := f) end.
      destruct (array_map_is_Some F items) as [[bs|e] ->]; eauto.
      intros x Hx. unfold F. pose proof (rank_elem x items Hx) as Hr.
      unfold bound_groups in Hb. cbn [isArray] in Hb.
      destruct (isString x) eqn:Hs.
      * apply IHg. unfold bound_group. destruct (isArray x); lia.
      * destruct (has x "name") eqn:Hh; [|eauto].
        destruct (has_name_object x Hs Hh) as (fields & -> & Hl).
        apply rank_field in Hl. apply IHg. unfold bound_group.
        destruct (isArray _); lia.
Qed.

Lemma isInGroup_fuel_enough st v n :
  (fuel_for v <= n)%nat -> isInGroup_fuel n st v = Some (isInGroup st v).
Proof.
  intros Hn. unfold isInGroup.
  destruct (proj1 (fuel_total (fuel_for v) st) v) as [r Hr].
  { unfold bound_group, fuel_for. destruct (isArray v); lia. }
  rewrite Hr. simpl. eapply (proj1 (fuel_mono _ st)); eauto.
Qed.

Lemma isInGroups_fuel_enough st v n :
  (fuel_for v <= n)%nat -> isInGroups_fuel n st v = Some (isInGroups st v).
Proof.
  intros Hn. unfold isInGroups.
  destruct (proj2 (fuel_total (fuel_for v) st) v) as [r Hr].
  { unfold bound_groups, fuel_for. destruct (isArray v); lia. }
  rewrite Hr. simpl. eapply (proj2 (fuel_mono _ st)); eauto.
Qed.

End Fuel.

Section Group_equations.
Context `{Platform}.

Lemma fuel_for_pieces s : fuel_for (VArr (VStr <$> split "," s)) = 4%nat.
Proof. unfold fuel_for. rewrite rank_pieces by apply split_pieces. reflexivity. Qed.

(** [isInGroup] and [isInGroups] satisfy the equations of their source
    bodies. *)
Lemma isInGroup_eq st checkGroups :
  isInGroup st checkGroups =
  if negb (isLoggedIn st) then Normal false
  else if negb (truthy checkGroups) then Normal false
  else
    match checkGroups with
    | VStr groupName =>
        let groupsArray := split "," groupName in
        if (1 <? length groupsArray)%nat then
          isInGroups st (VArr (VStr <$> groupsArray))
        else
          groups ← get (token_data st) "groups";
          any (or_else groups (VArr [])) (name_matches groupName)
    | VArr _ => isInGroups st checkGroups
    | _ => Normal false
    end.
Proof.
  apply (inj Some).
  rewrite <- (isInGroup_fuel_enough st checkGroups (S (fuel_for checkGroups + 4))) by lia.
  simpl.
  destruct (negb (isLoggedIn st)); [reflexivity|].
  destruct (negb (truthy checkGroups)); [reflexivity|].
  destruct checkGroups; try reflexivity.
  - destruct (1 <? length (split "," s))%nat; [|reflexivity].
    apply isInGroups_fuel_enough. rewrite fuel_for_pieces. lia.
  - apply isInGroups_fuel_enough. lia.
Qed.

Lemma isInGroups_eq st checkGroups :
  isInGroups st checkGroups =
  if negb (isLoggedIn st) then Normal false
  else if negb (truthy checkGroups) then Normal false
  else
    match checkGroups with
    | VArr items =>
        results ←
          map_results
            (fun group =>
               if isString group then isInGroup st group
               else if has group "name" then isInGroup st (read group "name")
               else Normal false)
            items;
        Normal (every (VBool <$> results) (VBool true))
    | VStr s =>
        let groupsArray := split "," s in
        if (1 <? length groupsArray)%nat then
          isInGroups st (VArr (VStr <$> groupsArray))
        else isInGroup st (default VUndefined (VStr <$> head groupsArray))
    | _ => Normal false
    end.
Proof.
  apply (inj Some).
  rewrite <- (isInGroups_fuel_enough st checkGroups (S (fuel_for checkGroups + 6))) by lia.
  simpl.
  destruct (negb (isLoggedIn st)); [reflexivity|].
  destruct (negb (truthy checkGroups)); [reflexivity|].
  destruct checkGroups; try reflexivity.
  - destruct (1 <? length (split "," s))%nat.
    + apply isInGroups_fuel_enough. rewrite fuel_for_pieces. lia.
    + apply isInGroup_fuel_enough.
      destruct (split "," s) as [|p ps]; simpl; unfold fuel_for; simpl; [lia|].
      destruct (contains_char "," p); lia.
  - match goal with |- context [map_results ?g items] => set (G := g) end.
    rewrite (array_map_results _ G items).
    + destruct (map_results G items); reflexivity.
    + intros x Hx. unfold G. pose proof (rank_elem x items Hx) as Hr.
      destruct (isString x) eqn:Hs.
      * apply isInGroup_fuel_enough. unfold fuel_for. lia.
      * destruct (has x "name") eqn:Hh; [|reflexivity].
        destruct (has_name_object x Hs Hh) as (fields & -> & Hl).
        apply rank_field in Hl. apply isInGroup_fuel_enough.
        unfold fuel_for. lia.
Qed.
End Group_equations.

(** *** Reading properties *)

Lemma get_read v k : nullish v = false -> get v k = Normal (read v k).
Proof. destruct v; try discriminate; reflexivity. Qed.

Lemma get_nullish v k : nullish v = true -> exists e, get v k = Throw e.
Proof. destruct v; try discriminate; eexists; reflexivity. Qed.

Lemma truthy_not_nullish v : truthy v = true -> nullish v = false.
Proof. destruct v; try discriminate; reflexivity. Qed.

Section Request_facts.

Context `{Platform}.

(** [handleResponse] hands exactly one request to the transport and
    touches neither the token nor the storage. *)
Lemma handleResponse_state req st :
  snd (handleResponse req st)
  = mkState (token_cache st) (storage st) (sent st ++ [req]).
Proof.
  unfold handleResponse. destruct (transport req) as [errorRes res].
  destruct (truthy errorRes).
  - match goal with |- context [match ?c with Normal _ => _ | Throw _ => _ end] =>
      destruct c end; reflexivity.
  - destruct (get res "body") as [body|]; [|reflexivity].
    destruct (JSON.parse body); reflexivity.
Qed.

Lemma addAuthHeader_header req st :
  req_header (addAuthHeader req st) !! "Authorization"
  = if truthy (token_string st)
    then Some ("Bearer " +:+ ToString (token_string st))
    else req_header req !! "Authorization".
Proof.
  unfold addAuthHeader. destruct (truthy (token_string st)); [|reflexivity].
  simpl. apply lookup_insert_eq.
Qed.

Lemma addAuthHeader_method req st :
  req_method (addAuthHeader req st) = req_method req.
Proof. unfold addAuthHeader. destruct (truthy _); reflexivity. Qed.

Lemma addAuthHeader_url req st :
  req_url (addAuthHeader req st) = req_url req.
Proof. unfold addAuthHeader. destruct (truthy _); reflexivity. Qed.

Lemma request_call_state v url data st :
  snd (request_call v url data st)
  = mkState (token_cache st) (storage st)
      (sent st ++ [addAuthHeader (built v url data) st]).
Proof. destruct v; apply handleResponse_state. Qed.

Lemma built_header v url data : req_header (built v url data) = ∅.
Proof.
  destruct v; simpl; unfold superagent_put; destruct (truthy data); reflexivity.
Qed.

End Request_facts.

Section Session_facts.

Context `{Platform}.

Lemma token_delete_clears st :
  token_string (token_delete st) = VNull
  /\ isLoggedIn (token_delete st) = false
  /\ token_cache (token_delete st) = None
  /\ storage (token_delete st) !! tokenName = None.
Proof.
  assert (Hs : storage (token_delete st) !! tokenName = None)
    by apply lookup_delete_eq.
  unfold isLoggedIn, token_string, getItem. simpl token_cache.
  rewrite Hs. repeat split; reflexivity || exact Hs.
Qed.

Lemma currentUser_after_logout st :
  currentUser (token_delete (set_currentUser VNull st)) = VNull
  /\ currentUser (token_delete (removeItem tokenUserDataName st)) = VNull.
Proof.
  unfold currentUser, getItem, token_delete, set_currentUser, setItem,
    removeItem; simpl. split.
  - destruct (decide (tokenName = tokenUserDataName)) as [->|Hne].
    + rewrite lookup_delete_eq. reflexivity.
    + rewrite lookup_delete_ne, lookup_insert_eq by exact Hne. reflexivity.
  - destruct (decide (tokenName = tokenUserDataName)) as [->|Hne].
    + rewrite lookup_delete_eq. reflexivity.
    + rewrite lookup_delete_ne, lookup_delete_eq by exact Hne. reflexivity.
Qed.

(** What [getCurrentUser] does with a rejected request: the 401 branch
    looks at the [status] of the rejection reason itself. *)
Lemma getCurrentUser_rejected st st1 reason status :
  truthy (currentUser st) = false ->
  isLoggedIn st = true ->
  request_get (endpoint +:+ "/user") VUndefined st = (Rejected reason, st1) ->
  get reason "status" = Normal status ->
  getCurrentUser st
  = if loose_eq_num status 401 then (Resolved VNull, token_delete st1)
    else (Rejected reason, st1).
Proof.
  intros Hu Hl Hreq Hs. unfold getCurrentUser.
  rewrite Hu, Hl, Hreq. simpl. rewrite Hs. reflexivity.
Qed.

(** A transport error with a truthy [message] and no response body is
    rejected as its message alone. *)
Lemma handleResponse_rejects_message req st errorRes res response message :
  transport req = (errorRes, res) ->
  truthy errorRes = true ->
  get errorRes "response" = Normal response ->
  truthy response = false \/ get response "body" = Normal VNull ->
  get errorRes "message" = Normal message ->
  truthy message = true ->
  fst (handleResponse req st) = Rejected message.
Proof.
  intros Ht He Hr Hb Hm Hmt. unfold handleResponse. rewrite Ht, He, Hr.
  cbn [mbind completion_bind].
  destruct (truthy response) eqn:Hresp.
  - destruct Hb as [Hb|Hb]; [discriminate|]. rewrite Hb.
    cbn [mbind completion_bind truthy]. rewrite Hm.
    cbn [mbind completion_bind]. unfold or_else. rewrite Hmt. reflexivity.
  - cbn [mbind completion_bind]. rewrite Hm.
    cbn [mbind completion_bind]. unfold or_else. rewrite Hmt. reflexivity.
Qed.

Lemma read_truthy v k : truthy (read v k) = true -> truthy v = true.
Proof.
  destruct v; try discriminate; try reflexivity.
  destruct s; [|reflexivity]. unfold read, own_property.
  destruct (String.eqb k "length"); [discriminate|].
  destruct (index_of_key k); discriminate.
Qed.

Lemma every_true_predicate (results : list bool) :
  every (VBool <$> results) (VBool true)
  = match results with [] => true | _ => false end.
Proof. destruct results; reflexivity. Qed.

Lemma map_results_length f l results :
  map_results f l = Normal results -> length results = length l.
Proof.
  revert results. induction l as [|x l IH]; simpl; intros results.
  - intros [= <-]. reflexivity.
  - destruct (f x); [|discriminate]. simpl.
    destruct (map_results f l) as [bs|]; [|discriminate]. simpl.
    intros [= <-]. simpl. f_equal. apply IH. reflexivity.
Qed.

(** On a list that is not empty [isInGroups] never answers [true]: the
    predicate [true] given to [every] selects the property named ["true"]
    of each boolean result, which is [undefined]. *)
Lemma isInGroups_nonempty_list_not_true st x items :
  isInGroups st (VArr (x :: items)) <> Normal true.
Proof.
  rewrite isInGroups_eq.
  destruct (negb (isLoggedIn st)); [discriminate|].
  cbn [truthy negb].
  destruct (map_results _ (x :: items)) as [results|e] eqn:Hm; [|discriminate].
  apply map_results_length in Hm. cbn [mbind completion_bind].
  rewrite every_true_predicate. destruct results; [discriminate Hm|discriminate].
Qed.

End Session_facts.

(** *** The test of a single group name *)

Section Group_facts.

Context `{Platform}.






End Group_facts.

(** ** The claims *)

(** C1. For every verb ([get], [post], [put], [del]) the request handed to
    the transport carries the header [Authorization: Bearer <token>] when
    the Token Manager's token string is truthy (neither [null] nor the
    empty string) and carries no [Authorization] header otherwise. *)
Theorem auth_header_iff_token `{Platform}
    (v : verb) (url : string) (data : value) (st : state) :
  exists req,
    sent (snd (request_call v url data st)) = sent st ++ [req]
    /\ req_header req !! "Authorization"
       = (if truthy (token_string st)
          then Some ("Bearer " +:+ ToString (token_string st)) else None)
    /\ (token_string st = VNull -> req_header req !! "Authorization" = None)
    /\ (forall t, token_string st = VStr t ->
          req_header req !! "Authorization"
          = if String.eqb t "" then None else Some ("Bearer " +:+ t)).
Proof.
  exists (addAuthHeader (built v url data) st).
  assert (Hh : req_header (addAuthHeader (built v url data) st) !! "Authorization"
               = (if truthy (token_string st)
                  then Some ("Bearer " +:+ ToString (token_string st))
                  else None)).
  { rewrite addAuthHeader_header, built_header.
    destruct (truthy _); [reflexivity | apply lookup_empty]. }
  split; [rewrite request_call_state; reflexivity|].
  split; [exact Hh|]. split.
  - intros Ht. rewrite Hh, Ht. reflexivity.
  - intros t Ht. rewrite Hh, Ht. simpl. destruct (String.eqb t ""); reflexivity.
Qed.

(** C2, on the code: with the claims [{groups: [{name: "admins"}]}] the
    name ["admins"] passes [isInGroup], yet [isInGroups(["admins"])] is
    [false]; only the empty list gives [true]. *)
Theorem isInGroups_member_list_false :
  token_data (H := Sample.ok_platform) Sample.fresh_login = Sample.admin_claims
  /\ isInGroup (H := Sample.ok_platform) Sample.fresh_login (VStr "admins")
     = Normal true
  /\ isInGroups (H := Sample.ok_platform) Sample.fresh_login
       (VArr [VStr "admins"]) = Normal false
  /\ isInGroups (H := Sample.ok_platform) Sample.fresh_login (VArr [])
     = Normal true.
Proof. repeat split; vm_compute; reflexivity. Qed.

(** What [logout()] does guarantee. Without a token it rejects with
    status [NULL_ACCOUNT] and leaves the state, the log of sent requests
    included, as it was. With a token it hands one PUT request for
    [<endpoint>/logout] to the transport and settles as that request does;
    when the request is fulfilled or rejected, the token (in memory and in
    storage) and the cached account are cleared afterwards. *)
Lemma logout_clears_session `{Platform} (st : state) :
  (isLoggedIn st = false ->
     logout st
     = (Rejected (failure "No logged in account to log out." "NULL_ACCOUNT"), st))
  /\ (isLoggedIn st = true ->
      let req := addAuthHeader (superagent PUT (endpoint +:+ "/logout")) st in
      sent (snd (logout st)) = sent st ++ [req]
      /\ fst (logout st) = fst (handleResponse req st)
      /\ (fst (logout st) <> Unsettled ->
          token_string (snd (logout st)) = VNull
          /\ isLoggedIn (snd (logout st)) = false
          /\ token_cache (snd (logout st)) = None
          /\ storage (snd (logout st)) !! tokenName = None
          /\ currentUser (snd (logout st)) = VNull)).
Proof.
  unfold logout. split; intros Hl; rewrite Hl; simpl negb; cbv iota.
  - reflexivity.
  - unfold request_put.
    change (superagent_put ?u VUndefined) with (superagent PUT u).
    set (req := addAuthHeader (superagent PUT (endpoint +:+ "/logout")) st).
    pose proof (handleResponse_state req st) as Hst.
    destruct (handleResponse req st) as [[response|reason|] st1];
      simpl in *; subst st1.
    + split; [reflexivity|]. split; [reflexivity|]. intros _.
      pose proof (token_delete_clears
                    (set_currentUser VNull
                       (mkState (token_cache st) (storage st) (sent st ++ [req]))))
        as (? & ? & ? & ?).
      repeat split; try assumption. apply currentUser_after_logout.
    + split; [reflexivity|]. split; [reflexivity|]. intros _.
      pose proof (token_delete_clears
                    (removeItem tokenUserDataName
                       (mkState (token_cache st) (storage st) (sent st ++ [req]))))
        as (? & ? & ? & ?).
      repeat split; try assumption. apply currentUser_after_logout.
    + split; [reflexivity|]. split; [reflexivity|]. intros Hne. contradiction.
Qed.

Lemma logout_clears_session_examples :
  (fst (logout (H := Sample.ok_platform) Sample.logged_in) = Resolved (VStr "ok")
   /\ token_string (H := Sample.ok_platform)
        (snd (logout (H := Sample.ok_platform) Sample.logged_in)) = VNull
   /\ currentUser (H := Sample.ok_platform)
        (snd (logout (H := Sample.ok_platform) Sample.logged_in)) = VNull)
  /\ (fst (logout (H := Sample.down_platform) Sample.logged_in)
      = Rejected (VStr "Internal Server Error")
      /\ token_string (H := Sample.down_platform)
           (snd (logout (H := Sample.down_platform) Sample.logged_in)) = VNull
      /\ currentUser (H := Sample.down_platform)
           (snd (logout (H := Sample.down_platform) Sample.logged_in)) = VNull).
Proof.
  split.
  - destruct (logout_clears_session (H := Sample.ok_platform) Sample.logged_in)
      as [_ Hin].
    destruct (Hin eq_refl) as (_ & Hp & Hc).
    split; [rewrite Hp; reflexivity|].
    destruct Hc as (Ht & _ & _ & _ & Hu); [rewrite Hp; discriminate|].
    split; assumption.
  - destruct (logout_clears_session (H := Sample.down_platform) Sample.logged_in)
      as [_ Hin].
    destruct (Hin eq_refl) as (_ & Hp & Hc).
    split; [rewrite Hp; reflexivity|].
    destruct Hc as (Ht & _ & _ & _ & Hu); [rewrite Hp; discriminate|].
    split; assumption.
Qed.

(** C3, on the code: when the request fails with an error whose response
    body has no [error] field, the callback of [handleResponse] throws
    while it reads [error.message]; the promise of [logout] is never
    settled, neither of its handlers runs, and the client keeps the token
    and the cached account. *)
Theorem logout_unsettled_keeps_token :
  isLoggedIn (H := Sample.error_platform) Sample.logged_in = true
  /\ fst (logout (H := Sample.error_platform) Sample.logged_in) = Unsettled
  /\ length (sent (snd (logout (H := Sample.error_platform) Sample.logged_in)))
     = 1%nat
  /\ token_string (H := Sample.error_platform)
       (snd (logout (H := Sample.error_platform) Sample.logged_in))
     = VStr "T"
  /\ currentUser (H := Sample.error_platform)
       (snd (logout (H := Sample.error_platform) Sample.logged_in))
     = VObj [("username", VStr "ann")].
Proof. repeat split; vm_compute; reflexivity. Qed.

(** C4, on the code: when the transport fails with status 401 the way
    superagent reports it (an error object with a message),
    [handleResponse] rejects with the message alone, a string;
    [getCurrentUser] then finds no [status] on it, keeps the token and
    rejects instead of resolving with [null]. *)
Theorem getCurrentUser_unauthorized_rejects :
  loose_eq_num (read Sample.unauthorized "status") 401 = true
  /\ fst (getCurrentUser (H := Sample.unauthorized_platform) Sample.fresh_login)
     = Rejected (VStr "Unauthorized")
  /\ token_string (H := Sample.unauthorized_platform)
       (snd (getCurrentUser (H := Sample.unauthorized_platform)
               Sample.fresh_login))
     = VStr "T".
Proof. repeat split; vm_compute; reflexivity. Qed.

(** C5, as the claim states it, fails for [login]: [login(null)] is
    rejected with status [DATA_REQUIRED], not [NULL_DATA]. *)
Lemma login_null_data_status :
  rejection_status (fst (login (H := Sample.ok_platform) VNull Sample.anonymous))
  = Some (VStr "DATA_REQUIRED")
  /\ rejection_status (fst (login (H := Sample.ok_platform) VNull Sample.anonymous))
     <> Some (VStr "NULL_DATA").
Proof. split; [reflexivity | discriminate]. Qed.

(** C5, amended. [signup] and [login] validate before any request is
    sent, and a failed validation rejects with a typed status and leaves
    the state (the log of sent requests included) unchanged: data that is
    falsy or neither an object nor a string gives [NULL_DATA] for [signup]
    and [DATA_REQUIRED] for [login]; an object with neither [username] nor
    [email] gives [ID_REQUIRED]; an object with one of them and no
    [password] gives [PASS_REQUIRED]. *)
Theorem validation_fails_fast `{Platform} (data : value) (st : state) :
  (negb (truthy data) || (negb (isObject data) && negb (isString data)) = true ->
     signup data st
     = (Rejected (failure "Signup data is required to signup." "NULL_DATA"), st)
     /\ login data st
        = (Rejected (failure "Login data is required to login." "DATA_REQUIRED"), st))
  /\ (isObject data = true ->
      truthy (read data "username") = false ->
      truthy (read data "email") = false ->
      signup data st
      = (Rejected (failure "Email or Username required to signup." "ID_REQUIRED"), st)
      /\ login data st
         = (Rejected (failure "Email or Username required to login." "ID_REQUIRED"), st))
  /\ (isObject data = true ->
      truthy (read data "username") || truthy (read data "email") = true ->
      truthy (read data "password") = false ->
      signup data st
      = (Rejected (failure "Password is required to signup." "PASS_REQUIRED"), st)
      /\ login data st
         = (Rejected (failure "Password is required to login." "PASS_REQUIRED"), st)).
Proof.
  assert (Hvalid : isObject data = true ->
            negb (truthy data) || (negb (isObject data) && negb (isString data))
            = false).
  { destruct data; simpl; congruence. }
  unfold signup, login. split; [|split].
  - intros Hinv. rewrite Hinv. split; reflexivity.
  - intros Hobj Hu He. rewrite (Hvalid Hobj), Hobj, Hu, He. split; reflexivity.
  - intros Hobj Hid Hpw. rewrite (Hvalid Hobj), Hobj, Hpw.
    apply orb_true_iff in Hid as [-> | ->]; simpl; rewrite ?andb_false_r;
      split; reflexivity.
Qed.

Lemma validation_fails_fast_witness :
  login (H := Sample.ok_platform) (VObj []) Sample.anonymous
  = (Rejected (failure "Email or Username required to login." "ID_REQUIRED"),
     Sample.anonymous)
  /\ signup (H := Sample.ok_platform) VNull Sample.anonymous
     = (Rejected (failure "Signup data is required to signup." "NULL_DATA"),
        Sample.anonymous)
  /\ signup (H := Sample.ok_platform) (VObj [("email", VStr "a@b.c")])
       Sample.anonymous
     = (Rejected (failure "Password is required to signup." "PASS_REQUIRED"),
        Sample.anonymous).
Proof.
  split; [|split].
  - apply (validation_fails_fast (H := Sample.ok_platform) (VObj [])
             Sample.anonymous); reflexivity.
  - apply (validation_fails_fast (H := Sample.ok_platform) VNull
             Sample.anonymous); reflexivity.
  - apply (validation_fails_fast (H := Sample.ok_platform)
             (VObj [("email", VStr "a@b.c")]) Sample.anonymous); reflexivity.
Defined.

(** C6. On transport success (a falsy [errorRes] and a response object
    [res]) [handleResponse] resolves, and never throws: with the result of
    [JSON.parse(res.body)] when the body parses, with the body itself
    when it does not. The JSON text of [{a: 1}] resolves to the object
    [{a: 1}], the text [ok] to the string ["ok"]. *)
Theorem handleResponse_parses_or_passes `{Platform}
    (req : Request) (st : state) (errorRes res body : value) :
  transport req = (errorRes, res) ->
  truthy errorRes = false ->
  get res "body" = Normal body ->
  exists result,
    handleResponse req st
    = (Resolved result, mkState (token_cache st) (storage st) (sent st ++ [req]))
    /\ result = match JSON.parse body with
                | Normal parsed => parsed
                | Throw _ => body
                end
    /\ (body = VStr Sample.json_a1 -> result = VObj [("a", num 1)])
    /\ (body = VStr "ok" -> result = VStr "ok").
Proof.
  intros Ht He Hb. unfold handleResponse. rewrite Ht, He, Hb.
  destruct (JSON.parse body) as [parsed|e] eqn:Hp.
  - exists parsed. repeat split; intros ->; vm_compute in Hp; vm_compute;
      congruence.
  - exists body. repeat split; intros ->; vm_compute in Hp; congruence.
Qed.

Lemma handleResponse_parses_or_passes_witness :
  fst (handleResponse
         (H := Sample.platform (Sample.answers (VStr Sample.json_a1)))
         (superagent GET "http://localhost:4000/apps/demo/user") Sample.anonymous)
  = Resolved (VObj [("a", num 1)]).
Proof.
  destruct (handleResponse_parses_or_passes
              (H := Sample.platform (Sample.answers (VStr Sample.json_a1)))
              (superagent GET "http://localhost:4000/apps/demo/user")
              Sample.anonymous VNull
              (VObj [("status", num 200); ("body", VStr Sample.json_a1)])
              (VStr Sample.json_a1) eq_refl eq_refl eq_refl)
    as (result & Heq & _ & Ha & _).
  rewrite Heq. simpl. f_equal. apply Ha. reflexivity.
Defined.

(** C7, on the code: [request.del] builds its request with
    [superagent.put], so the transport receives a PUT request, not a
    DELETE one (the other three operations use their own verb). *)
Theorem request_del_sends_put `{Platform}
    (url : string) (data : value) (st : state) :
  exists req,
    sent (snd (request_del url data st)) = sent st ++ [req]
    /\ req_method req = PUT
    /\ req_method req <> DELETE
    /\ req_url req = url.
Proof.
  exists (addAuthHeader (built del_verb url data) st).
  split; [apply (f_equal sent (request_call_state del_verb url data st))|].
  rewrite addAuthHeader_method, addAuthHeader_url.
  simpl. unfold superagent_put. destruct (truthy data); simpl; auto.
Qed.

(** The verbs of the three other operations. *)
Lemma request_methods (url : string) (data : value) :
  req_method (built get_verb url data) = GET
  /\ req_method (built post_verb url data) = POST
  /\ req_method (built put_verb url data) = PUT.
Proof.
  simpl. unfold superagent_put. destruct (truthy data); simpl; auto.
Qed.

(** C8, as the claim states it, fails: the account built from legacy
    claims has the fields [username], [name] and [authrocketId]; there is
    no [providerId]. *)
Lemma login_legacy_no_providerId :
  fst (login (H := Sample.token_platform) Sample.bob Sample.anonymous)
  = Resolved (VObj [("username", VStr "bob"); ("name", VStr "Bob");
                    ("authrocketId", VNull)])
  /\ has (VObj [("username", VStr "bob"); ("name", VStr "Bob");
                ("authrocketId", VNull)]) "providerId" = false.
Proof. split; vm_compute; reflexivity. Qed.

(** C8, amended. When the login request is fulfilled with a response that
    is no 409 report and has no [account], and the claims decoded from the
    token (the one just stored, when the response has one) have a truthy
    [un] field, [login] resolves with
    [{username: un, name: n || null, authrocketId: uid || null}] and
    caches that record; [name] and [authrocketId] are [null] when the
    claims have no [n], respectively no [uid]. *)
Theorem login_legacy_account `{Platform}
    (loginData response : value) (st st1 : state) :
  isObject loginData = true ->
  truthy (read loginData "username") || truthy (read loginData "email") = true ->
  truthy (read loginData "password") = true ->
  request_put (endpoint +:+ "/login") loginData st = (Resolved response, st1) ->
  has response "data" && has (read response "data") "status"
    && loose_eq_num (read (read response "data") "status") 409 = false ->
  has response "account" = false ->
  let st2 :=
    if has response "token" then token_set (read response "token") st1
    else st1 in
  let claims := token_data st2 in
  truthy (read claims "un") = true ->
  let account :=
    VObj [("username", read claims "un");
          ("name", or_else (read claims "n") VNull);
          ("authrocketId", or_else (read claims "uid") VNull)] in
  login loginData st = (Resolved account, setItem tokenUserDataName account st2)
  /\ (has claims "n" = false -> read account "name" = VNull)
  /\ (has claims "uid" = false -> read account "authrocketId" = VNull).
Proof.
  intros Hobj Hid Hpw Hreq H409 Hacc st2 claims Hun account.
  split.
  - unfold login.
    replace (negb (truthy loginData)
             || (negb (isObject loginData) && negb (isString loginData)))
      with false by (destruct loginData; simpl in *; congruence).
    rewrite Hobj.
    replace (negb (truthy (read loginData "username"))
             && negb (truthy (read loginData "email"))) with false
      by (apply orb_true_iff in Hid as [-> | ->]; simpl;
          rewrite ?andb_false_r; reflexivity).
    replace (negb (truthy (read loginData "password"))
             || is_empty_string (read loginData "password")) with false
      by (rewrite Hpw; destruct (read loginData "password") as [| | | | s | |];
          simpl in *; try reflexivity; destruct (String.eqb s ""); auto).
    rewrite Hreq. simpl then_. rewrite H409. simpl catch_.
    fold st2. unfold userAccount. rewrite Hacc. fold claims.
    rewrite (read_truthy _ _ Hun), Hun. reflexivity.
  - assert (Habsent : forall k, has claims k = false -> read claims k = VUndefined).
    { intros k Hn. apply bool_decide_eq_false in Hn. unfold read.
      destruct (own_property claims k) as [v|]; [|reflexivity].
      exfalso. apply Hn. exists v. reflexivity. }
    split; intros Hn; subst account; unfold read at 1; simpl;
      rewrite (Habsent _ Hn); reflexivity.
Qed.

Lemma login_legacy_account_witness :
  login (H := Sample.token_platform) Sample.bob Sample.anonymous
  = (Resolved (VObj [("username", VStr "bob"); ("name", VStr "Bob");
                     ("authrocketId", VNull)]),
     setItem "currentUser"
       (VObj [("username", VStr "bob"); ("name", VStr "Bob");
              ("authrocketId", VNull)])
       (token_set (H := Sample.token_platform) (VStr "L")
          (mkState None ∅
             [superagent_put "http://localhost:4000/apps/demo/login" Sample.bob]))).
Proof.
  apply (login_legacy_account (H := Sample.token_platform) Sample.bob
           (VObj [("token", VStr "L")]) Sample.anonymous
           (mkState None ∅
              [superagent_put "http://localhost:4000/apps/demo/login" Sample.bob]));
    reflexivity.
Defined.




(** C10. [new Matter(appName)] throws, synchronously, when the name is
    missing or empty (any falsy value); for every other name it returns
    an instance whose [name] is the given one. *)
Theorem constructor_requires_name (appName opts logLevel : value) :
  (truthy appName = false ->
     constructor appName opts logLevel
     = Throw (Error "Application name is required to use Matter"))
  /\ (truthy appName = true ->
      exists instance level,
        constructor appName opts logLevel = Normal (instance, level)
        /\ name instance = appName)
  /\ (appName = VUndefined \/ appName = VStr "" -> truthy appName = false)
  /\ (forall s, appName = VStr s -> s <> "" -> truthy appName = true).
Proof.
  unfold constructor. repeat split.
  - intros ->. reflexivity.
  - intros ->. simpl. destruct (truthy opts); eauto.
  - intros [-> | ->]; reflexivity.
  - intros s -> Hs. simpl.
    destruct (String.eqb_spec s ""); [contradiction|reflexivity].
Qed.

Lemma constructor_requires_name_witness :
  constructor VUndefined VUndefined VNull
  = Throw (Error "Application name is required to use Matter")
  /\ exists instance level,
       constructor (VStr "demo") VUndefined VNull = Normal (instance, level)
       /\ name instance = VStr "demo".
Proof.
  split.
  - apply (constructor_requires_name VUndefined VUndefined VNull). reflexivity.
  - apply (constructor_requires_name (VStr "demo") VUndefined VNull). reflexivity.
Defined.

(** ** Further properties of the code *)

(** *** Further auxiliary facts *)

Section Request_outcomes.

Context `{Platform}.

Lemma handleResponse_error req st errorRes res :
  transport req = (errorRes, res) ->
  truthy errorRes = true ->
  fst (handleResponse req st)
  = if nullish (reported_error errorRes) then Unsettled
    else Rejected (or_else (read (reported_error errorRes) "message")
                     (reported_error errorRes)).
Proof.
  intros Ht He. unfold handleResponse, reported_error. rewrite Ht, He.
  rewrite (get_read errorRes "response") by (apply truthy_not_nullish; exact He).
  cbn [mbind completion_bind].
  destruct (truthy (read errorRes "response")) eqn:Hr; cbn [andb].
  - rewrite (get_read (read errorRes "response") "body")
      by (apply truthy_not_nullish; exact Hr).
    cbn [mbind completion_bind].
    destruct (truthy (read (read errorRes "response") "body")) eqn:Hb.
    + rewrite (get_read _ "error") by (apply truthy_not_nullish; exact Hb).
      cbn [mbind completion_bind].
      destruct (nullish (read (read (read errorRes "response") "body") "error"))
        eqn:Hn.
      * destruct (get_nullish _ "message" Hn) as [e ->]. reflexivity.
      * rewrite (get_read _ "message" Hn). reflexivity.
    + cbn [mbind completion_bind].
      rewrite (truthy_not_nullish _ He).
      rewrite (get_read _ "message") by (apply truthy_not_nullish; exact He).
      reflexivity.
  - cbn [mbind completion_bind].
    rewrite (truthy_not_nullish _ He).
    rewrite (get_read _ "message") by (apply truthy_not_nullish; exact He).
    reflexivity.
Qed.

Lemma or_else_not_nullish a b : nullish b = false -> nullish (or_else a b) = false.
Proof.
  intros Hb. unfold or_else. destruct (truthy a) eqn:Ha; [|exact Hb].
  apply truthy_not_nullish. exact Ha.
Qed.

Lemma handleResponse_reason req st reason :
  fst (handleResponse req st) = Rejected reason -> nullish reason = false.
Proof.
  destruct (transport req) as [errorRes res] eqn:Ht.
  destruct (truthy errorRes) eqn:He.
  - rewrite (handleResponse_error req st errorRes res Ht He).
    destruct (nullish (reported_error errorRes)) eqn:Hn; [discriminate|].
    intros [= <-]. apply or_else_not_nullish. exact Hn.
  - unfold handleResponse. rewrite Ht, He.
    destruct (get res "body") as [body|e]; [|discriminate].
    destruct (JSON.parse body); discriminate.
Qed.

Lemma handleResponse_outcome req st st' :
  fst (handleResponse req st) = fst (handleResponse req st').
Proof.
  unfold handleResponse. destruct (transport req) as [errorRes res].
  destruct (truthy errorRes).
  - destruct (x ← get errorRes "response"; _); reflexivity.
  - destruct (get res "body") as [body|e]; [|reflexivity].
    destruct (JSON.parse body); reflexivity.
Qed.

Lemma request_call_outcome v url data st :
  fst (request_call v url data st)
  = fst (handleResponse (addAuthHeader (built v url data) st) st).
Proof. destruct v; reflexivity. Qed.

Lemma request_call_eq v url data st :
  request_call v url data st
  = (fst (handleResponse (addAuthHeader (built v url data) st) st),
     mkState (token_cache st) (storage st)
       (sent st ++ [addAuthHeader (built v url data) st])).
Proof.
  rewrite <- request_call_outcome, <- request_call_state.
  destruct (request_call v url data st); reflexivity.
Qed.

End Request_outcomes.

(** ** Further properties of the Request Client *)

(** X1. Whatever the verb and the outcome, a call of the Request Client
    hands exactly one request, for the URL it was given, to the transport
    and leaves the session alone: the token (in memory and in storage), the
    storage and therefore the cached account are as before. *)
Theorem request_leaves_session `{Platform}
    (v : verb) (url : string) (data : value) (st : state) :
  token_cache (snd (request_call v url data st)) = token_cache st
  /\ storage (snd (request_call v url data st)) = storage st
  /\ token_string (snd (request_call v url data st)) = token_string st
  /\ isLoggedIn (snd (request_call v url data st)) = isLoggedIn st
  /\ currentUser (snd (request_call v url data st)) = currentUser st
  /\ exists req,
       sent (snd (request_call v url data st)) = sent st ++ [req]
       /\ req_url req = url.
Proof.
  rewrite request_call_state. repeat split.
  eexists. split; [reflexivity|].
  rewrite addAuthHeader_url. destruct v; simpl; try reflexivity;
    unfold superagent_put; destruct (truthy data); reflexivity.
Qed.

(** X2. The payload of the request each operation sends: [get] attaches
    its second argument as the query when it is truthy and never sends a
    body; [post] sends its data as the body even when it is falsy; [put]
    and [del] send the data as the body only when it is truthy; none but
    [get] sets a query. *)
Theorem request_payload `{Platform} (url : string) (data : value) (st : state) :
  (exists req,
     sent (snd (request_get url data st)) = sent st ++ [req]
     /\ req_query req = (if truthy data then data else VUndefined)
     /\ req_data req = VUndefined)
  /\ (exists req,
        sent (snd (request_post url data st)) = sent st ++ [req]
        /\ req_query req = VUndefined
        /\ req_data req = data)
  /\ (exists req,
        sent (snd (request_put url data st)) = sent st ++ [req]
        /\ req_query req = VUndefined
        /\ req_data req = (if truthy data then data else VUndefined))
  /\ (exists req,
        sent (snd (request_del url data st)) = sent st ++ [req]
        /\ req_query req = VUndefined
        /\ req_data req = (if truthy data then data else VUndefined)).
Proof.
  pose proof (request_call_state get_verb url data st) as Hg.
  pose proof (request_call_state post_verb url data st) as Hp.
  pose proof (request_call_state put_verb url data st) as Hu.
  pose proof (request_call_state del_verb url data st) as Hd.
  cbn [request_call] in Hg, Hp, Hu, Hd. rewrite Hg, Hp, Hu, Hd.
  repeat split; eexists; (split; [reflexivity|]);
    unfold addAuthHeader, built, superagent_put;
    destruct (truthy (token_string st)); destruct (truthy data);
    split; reflexivity.
Qed.

(** X3. When the transport reports an error, [handleResponse] never
    resolves. With [error] the [error] field of the response body when the
    error carries a response with a truthy body, and the transport's error
    otherwise, the promise is rejected with [error.message] when that is
    truthy and with [error] itself when not; it is left unsettled exactly
    when [error] is [null] or [undefined]. A rejection reason is therefore
    never [null] or [undefined]. *)
Theorem handleResponse_error_reason `{Platform}
    (req : Request) (st : state) (errorRes res : value) :
  transport req = (errorRes, res) ->
  truthy errorRes = true ->
  handleResponse req st
  = (if nullish (reported_error errorRes) then Unsettled
     else Rejected (or_else (read (reported_error errorRes) "message")
                      (reported_error errorRes)),
     mkState (token_cache st) (storage st) (sent st ++ [req]))
  /\ (forall v, fst (handleResponse req st) <> Resolved v)
  /\ (fst (handleResponse req st) = Unsettled
      <-> nullish (reported_error errorRes) = true)
  /\ (forall reason, fst (handleResponse req st) = Rejected reason ->
        nullish reason = false).
Proof.
  intros Ht He.
  pose proof (handleResponse_error req st errorRes res Ht He) as Hf.
  pose proof (handleResponse_state req st) as Hs.
  split; [|split; [|split]].
  - rewrite <- Hf, <- Hs. destruct (handleResponse req st); reflexivity.
  - intros v. rewrite Hf. destruct (nullish _); discriminate.
  - rewrite Hf. destruct (nullish _); split; congruence.
  - intros reason. apply handleResponse_reason.
Qed.

Lemma handleResponse_error_reason_witness :
  handleResponse (H := Sample.down_platform)
    (superagent GET "http://localhost:4000/apps/demo/user") Sample.anonymous
  = (Rejected (VStr "Internal Server Error"),
     mkState None ∅ [superagent GET "http://localhost:4000/apps/demo/user"])
  /\ fst (handleResponse (H := Sample.error_platform)
            (superagent GET "http://localhost:4000/apps/demo/user")
            Sample.anonymous)
     = Unsettled.
Proof.
  split.
  - exact (proj1 (handleResponse_error_reason (H := Sample.down_platform)
                    (superagent GET "http://localhost:4000/apps/demo/user")
                    Sample.anonymous Sample.server_down VUndefined
                    eq_refl eq_refl)).
  - apply (proj1 (proj2 (proj2 (handleResponse_error_reason
                    (H := Sample.error_platform)
                    (superagent GET "http://localhost:4000/apps/demo/user")
                    Sample.anonymous Sample.server_error
                    (read Sample.server_error "response")
                    eq_refl eq_refl)))).
    reflexivity.
Defined.

(** ** Further properties of the Session Facade *)

Section Facade_facts.

Context `{Platform}.

Lemma request_post_eq url data st :
  request_post url data st
  = (fst (handleResponse (addAuthHeader (send data (superagent POST url)) st) st),
     mkState (token_cache st) (storage st)
       (sent st ++ [addAuthHeader (send data (superagent POST url)) st])).
Proof. exact (request_call_eq post_verb url data st). Qed.

Lemma request_put_eq url data st :
  request_put url data st
  = (fst (handleResponse (addAuthHeader (superagent_put url data) st) st),
     mkState (token_cache st) (storage st)
       (sent st ++ [addAuthHeader (superagent_put url data) st])).
Proof. exact (request_call_eq put_verb url data st). Qed.

Lemma request_get_eq url data st :
  request_get url data st
  = (fst (handleResponse (addAuthHeader (built get_verb url data) st) st),
     mkState (token_cache st) (storage st)
       (sent st ++ [addAuthHeader (built get_verb url data) st])).
Proof. exact (request_call_eq get_verb url data st). Qed.

Lemma truthy_not_empty_string v : truthy v = true -> is_empty_string v = false.
Proof. destruct v; try reflexivity. simpl. destruct (String.eqb s ""); [discriminate|reflexivity]. Qed.

(** [login] past its validation. *)
Lemma login_valid loginData st :
  isObject loginData = true ->
  truthy (read loginData "username") || truthy (read loginData "email") = true ->
  truthy (read loginData "password") = true ->
  login loginData st
  = catch_
      (then_ (request_put (endpoint +:+ "/login") loginData st)
         (fun response st1 =>
            if has response "data"
               && has (read response "data") "status"
               && loose_eq_num (read (read response "data") "status") 409
            then (Rejected (read response "data"), st1)
            else
              let st2 :=
                if has response "token"
                then token_set (read response "token") st1 else st1 in
              let account := userAccount response st2 in
              (Resolved account, setItem tokenUserDataName account st2)))
      (fun errRes st1 =>
         let reason : completion value :=
           status ← get errRes "status";
           if loose_eq_num status 409 || loose_eq_num status 400 then
             response ← get errRes "response"; get response "text"
           else Normal errRes in
         match reason with
         | Normal r => (Rejected r, st1)
         | Throw e => (Rejected e, st1)
         end).
Proof.
  intros Ho Hid Hp. unfold login.
  assert (truthy loginData = true) as -> by (destruct loginData; try discriminate; reflexivity).
  rewrite Ho. cbn [negb orb andb].
  apply orb_true_iff in Hid.
  replace (negb (truthy (read loginData "username"))
           && negb (truthy (read loginData "email"))) with false
    by (destruct Hid as [-> | ->]; [reflexivity | rewrite andb_comm; reflexivity]).
  rewrite Hp, (truthy_not_empty_string _ Hp). reflexivity.
Qed.

Lemma signup_valid signupData st :
  isObject signupData = true ->
  truthy (read signupData "username") || truthy (read signupData "email") = true ->
  truthy (read signupData "password") = true ->
  signup signupData st
  = catch_
      (then_ (request_post (endpoint +:+ "/signup") signupData st)
         (fun response st1 =>
            if has response "account" then
              (Resolved (read response "account"), st1)
            else (Resolved response, st1)))
      (fun errRes st1 => (Rejected errRes, st1)).
Proof.
  intros Ho Hid Hp. unfold signup.
  assert (truthy signupData = true) as -> by (destruct signupData; try discriminate; reflexivity).
  rewrite Ho. cbn [negb orb andb].
  apply orb_true_iff in Hid.
  replace (negb (truthy (read signupData "username"))
           && negb (truthy (read signupData "email"))) with false
    by (destruct Hid as [-> | ->]; [reflexivity | rewrite andb_comm; reflexivity]).
  rewrite Hp. reflexivity.
Qed.

Lemma has_not_nullish v k : has v k = true -> nullish v = false.
Proof.
  unfold has. intros Hh. apply bool_decide_eq_true in Hh as [x Hx].
  destruct v; try discriminate; reflexivity.
Qed.

(** [getCurrentUser] when it has to ask the server. *)
Lemma getCurrentUser_request st :
  truthy (currentUser st) = false ->
  isLoggedIn st = true ->
  let req := addAuthHeader (superagent GET (endpoint +:+ "/user")) st in
  let st1 := mkState (token_cache st) (storage st) (sent st ++ [req]) in
  getCurrentUser st
  = match fst (handleResponse req st) with
    | Resolved response => (Resolved response, set_currentUser response st1)
    | Rejected reason =>
        if loose_eq_num (read reason "status") 401
        then (Resolved VNull, token_delete st1)
        else (Rejected reason, st1)
    | Unsettled => (Unsettled, st1)
    end.
Proof.
  intros Hc Hl req st1. unfold getCurrentUser. rewrite Hc, Hl. cbn [negb].
  rewrite request_get_eq. cbn [built truthy]. fold req. fold st1.
  destruct (fst (handleResponse req st)) as [response|reason|] eqn:Hf;
    cbn [then_ catch_]; try reflexivity.
  rewrite (get_read reason "status")
    by (apply (handleResponse_reason req st); exact Hf).
  reflexivity.
Qed.

End Facade_facts.

(** X4. A [signup] with data that pass the validation sends one POST
    request for [<endpoint>/signup] with the data as its body. It settles
    as that request does: a response with an own [account] field resolves
    to that field, any other response to itself, a rejection passes its
    reason on. It never logs the account in: token, storage and cached
    account are as before. *)
Theorem signup_sends_post `{Platform} (signupData : value) (st : state) :
  isObject signupData = true ->
  truthy (read signupData "username") || truthy (read signupData "email") = true ->
  truthy (read signupData "password") = true ->
  let req := addAuthHeader (send signupData (superagent POST (endpoint +:+ "/signup"))) st in
  signup signupData st
  = (match fst (handleResponse req st) with
     | Resolved response =>
         Resolved (if has response "account" then read response "account"
                   else response)
     | p => p
     end,
     mkState (token_cache st) (storage st) (sent st ++ [req]))
  /\ isLoggedIn (snd (signup signupData st)) = isLoggedIn st
  /\ currentUser (snd (signup signupData st)) = currentUser st.
Proof.
  intros Ho Hid Hp req.
  assert (signup signupData st
          = (match fst (handleResponse req st) with
             | Resolved response =>
                 Resolved (if has response "account" then read response "account"
                           else response)
             | p => p
             end,
             mkState (token_cache st) (storage st) (sent st ++ [req]))) as Hs.
  { rewrite (signup_valid _ _ Ho Hid Hp), request_post_eq. fold req.
    destruct (fst (handleResponse req st)) as [response|reason|]; simpl;
      try reflexivity.
    destruct (has response "account"); reflexivity. }
  rewrite Hs. repeat split.
Qed.

Lemma signup_sends_post_witness :
  signup (H := Sample.ok_platform) Sample.bob Sample.anonymous
  = (Resolved (VStr "ok"),
     mkState None ∅
       [send Sample.bob (superagent POST "http://localhost:4000/apps/demo/signup")]).
Proof.
  exact (proj1 (signup_sends_post (H := Sample.ok_platform) Sample.bob
                  Sample.anonymous eq_refl eq_refl eq_refl)).
Defined.

(** X5. A [login] that is fulfilled by a response which is no 409 report
    and has a truthy [token] opens the session: the client is logged in
    with that token, every following request of the Request Client carries
    [Authorization: Bearer <token>], and when the account that [login]
    resolved with is truthy it is the cached account, which
    [getCurrentUser] then resolves with without sending anything. *)
Theorem login_opens_session `{Platform}
    (loginData response : value) (st st1 : state) :
  isObject loginData = true ->
  truthy (read loginData "username") || truthy (read loginData "email") = true ->
  truthy (read loginData "password") = true ->
  request_put (endpoint +:+ "/login") loginData st = (Resolved response, st1) ->
  has response "data" && has (read response "data") "status"
    && loose_eq_num (read (read response "data") "status") 409 = false ->
  has response "token" = true ->
  truthy (read response "token") = true ->
  exists account st',
    login loginData st = (Resolved account, st')
    /\ (has response "account" = true -> account = read response "account")
    /\ token_string st' = read response "token"
    /\ isLoggedIn st' = true
    /\ (forall v url data,
          exists req,
            sent (snd (request_call v url data st')) = sent st' ++ [req]
            /\ req_header req !! "Authorization"
               = Some ("Bearer " +:+ ToString (read response "token")))
    /\ (truthy account = true ->
        currentUser st' = account
        /\ getCurrentUser st' = (Resolved account, st')).
Proof.
  intros Ho Hid Hp Hr H409 Ht Htt.
  rewrite (login_valid _ _ Ho Hid Hp), Hr. cbn [then_ catch_].
  rewrite H409, Ht. cbv zeta. cbn [catch_].
  set (st2 := token_set (read response "token") st1).
  set (account := userAccount response st2).
  exists account, (setItem tokenUserDataName account st2).
  assert (token_string (setItem tokenUserDataName account st2)
          = read response "token") as Hts by reflexivity.
  split; [reflexivity|].
  split; [intros Hacc; unfold account, userAccount; rewrite Hacc; reflexivity|].
  split; [exact Hts|].
  split; [unfold isLoggedIn; rewrite Hts, Htt; reflexivity|].
  split.
  - intros v url data. rewrite request_call_state. eexists.
    split; [reflexivity|].
    rewrite addAuthHeader_header, Hts, Htt. reflexivity.
  - intros Ha.
    assert (currentUser (setItem tokenUserDataName account st2) = account) as Hc.
    { unfold currentUser, getItem, setItem. simpl.
      rewrite lookup_insert_eq. simpl. rewrite Ha. reflexivity. }
    split; [exact Hc|].
    unfold getCurrentUser. rewrite Hc, Ha. reflexivity.
Qed.

Lemma login_opens_session_witness :
  exists account st',
    login (H := Sample.token_platform) Sample.bob Sample.anonymous
    = (Resolved account, st')
    /\ token_string (H := Sample.token_platform) st' = VStr "L"
    /\ isLoggedIn (H := Sample.token_platform) st' = true.
Proof.
  destruct (login_opens_session (H := Sample.token_platform) Sample.bob
              (VObj [("token", VStr "L")]) Sample.anonymous
              (mkState None ∅
                 [superagent_put "http://localhost:4000/apps/demo/login" Sample.bob])
              eq_refl eq_refl eq_refl)
    as (account & st' & Hl & _ & Ht & Hi & _).
  - vm_compute. reflexivity.
  - reflexivity.
  - reflexivity.
  - reflexivity.
  - exists account, st'. split; [exact Hl|]. split; [exact Ht|exact Hi].
Defined.

(** X6. A [login] with credentials changes the session only by
    resolving: when its data are an object and its promise is rejected or
    left unsettled (failed validation, failed request, 409 report, or a
    request that never settles), token and storage are as before. *)
Theorem login_failure_keeps_session `{Platform} (loginData : value) (st : state) :
  isObject loginData = true ->
  (forall account, fst (login loginData st) <> Resolved account) ->
  token_cache (snd (login loginData st)) = token_cache st
  /\ storage (snd (login loginData st)) = storage st
  /\ isLoggedIn (snd (login loginData st)) = isLoggedIn st
  /\ currentUser (snd (login loginData st)) = currentUser st.
Proof.
  intros Ho Hn.
  assert (token_cache (snd (login loginData st)) = token_cache st
          /\ storage (snd (login loginData st)) = storage st) as [Hc Hs].
  { revert Hn. unfold login.
    destruct (negb (truthy loginData)
              || negb (isObject loginData) && negb (isString loginData));
      [split; reflexivity|].
    rewrite Ho.
    destruct (negb (truthy (read loginData "username"))
              && negb (truthy (read loginData "email")));
      [split; reflexivity|].
    destruct (negb (truthy (read loginData "password"))
              || is_empty_string (read loginData "password"));
      [split; reflexivity|].
    rewrite request_put_eq.
    destruct (fst (handleResponse _ st)) as [response|reason|];
      cbn [then_ catch_].
    - destruct (has response "data" && has (read response "data") "status"
                && loose_eq_num (read (read response "data") "status") 409).
      + cbn [catch_]. intros _.
        destruct (x ← get (read response "data") "status"; _);
          split; reflexivity.
      + cbv zeta. cbn [catch_ fst]. intros Hn. exfalso. eapply Hn. reflexivity.
    - intros _. destruct (x ← get reason "status"; _); split; reflexivity.
    - intros _. split; reflexivity. }
  unfold isLoggedIn, currentUser, token_string, getItem. rewrite Hc, Hs.
  repeat split.
Qed.

Lemma login_failure_keeps_session_witness :
  storage (snd (login (H := Sample.down_platform) Sample.bob Sample.logged_in))
  = storage Sample.logged_in.
Proof.
  apply (login_failure_keeps_session (H := Sample.down_platform) Sample.bob
           Sample.logged_in eq_refl).
  intros account. vm_compute. discriminate.
Defined.

(** X7. When the login request is fulfilled by a response whose [data]
    reports status 409, the rejection with [response.data] is caught by
    the error handler of [login] itself, which finds the status 409 on it
    and replaces it by [data.response.text]: [login] rejects with that
    text, and with a [TypeError] when [data] has no [response]; the
    session is left as it was. *)
Theorem login_conflict_report `{Platform}
    (loginData response : value) (st st1 : state) :
  isObject loginData = true ->
  truthy (read loginData "username") || truthy (read loginData "email") = true ->
  truthy (read loginData "password") = true ->
  request_put (endpoint +:+ "/login") loginData st = (Resolved response, st1) ->
  has response "data" = true ->
  has (read response "data") "status" = true ->
  loose_eq_num (read (read response "data") "status") 409 = true ->
  exists reason,
    login loginData st = (Rejected reason, st1)
    /\ (nullish (read (read response "data") "response") = true ->
        read reason "name" = VStr "TypeError")
    /\ (nullish (read (read response "data") "response") = false ->
        reason = read (read (read response "data") "response") "text")
    /\ token_cache st1 = token_cache st
    /\ storage st1 = storage st.
Proof.
  intros Ho Hid Hp Hr Hd Hs H409.
  assert (token_cache st1 = token_cache st /\ storage st1 = storage st)
    as [Hc Hst].
  { rewrite request_put_eq in Hr. injection Hr as _ <-. split; reflexivity. }
  rewrite (login_valid _ _ Ho Hid Hp), Hr. cbn [then_].
  rewrite Hd, Hs, H409. cbn [andb catch_].
  rewrite (get_read _ "status" (has_not_nullish _ _ Hs)).
  cbn [mbind completion_bind]. rewrite H409. cbn [orb].
  rewrite (get_read _ "response" (has_not_nullish _ _ Hs)).
  cbn [mbind completion_bind].
  destruct (read (read response "data") "response");
    (eexists; split; [reflexivity|]);
    (split; [first [discriminate | reflexivity]|]);
    (split; [first [discriminate | reflexivity]|]);
    split; assumption.
Qed.

Lemma login_conflict_report_witness :
  exists reason,
    fst (login
           (H := Sample.platform
                   (Sample.answers
                      (VObj [("data", VObj [("status", num 409)])])))
           Sample.bob Sample.anonymous)
    = Rejected reason
    /\ read reason "name" = VStr "TypeError".
Proof.
  destruct (login_conflict_report
              (H := Sample.platform
                      (Sample.answers
                         (VObj [("data", VObj [("status", num 409)])])))
              Sample.bob (VObj [("data", VObj [("status", num 409)])])
              Sample.anonymous
              (mkState None ∅
                 [superagent_put "http://localhost:4000/apps/demo/login"
                    Sample.bob])
              eq_refl eq_refl eq_refl)
    as (reason & Hl & Hn & _).
  - vm_compute. reflexivity.
  - reflexivity.
  - reflexivity.
  - reflexivity.
  - exists reason. rewrite Hl. split; [reflexivity|]. apply Hn. reflexivity.
Defined.

(** X8. [getCurrentUser] without a cached account on a logged-in client
    sends one GET request for [<endpoint>/user], without a query, and
    settles by that request alone: a response is cached and resolved; a
    rejection whose reason has a [status] equal to 401 deletes the token
    and resolves with [null]; any other rejection passes its reason on
    unchanged (reading [status] off the reason never throws, since the
    Request Client gives no [null] or [undefined] reason); an unsettled
    request leaves it unsettled. *)
Theorem getCurrentUser_fetches `{Platform} (st : state) :
  truthy (currentUser st) = false ->
  isLoggedIn st = true ->
  exists req,
    req_method req = GET
    /\ req_url req = endpoint +:+ "/user"
    /\ req_query req = VUndefined
    /\ getCurrentUser st
       = match fst (handleResponse req st) with
         | Resolved response =>
             (Resolved response,
              set_currentUser response
                (mkState (token_cache st) (storage st) (sent st ++ [req])))
         | Rejected reason =>
             if loose_eq_num (read reason "status") 401
             then (Resolved VNull,
                   token_delete
                     (mkState (token_cache st) (storage st) (sent st ++ [req])))
             else (Rejected reason,
                   mkState (token_cache st) (storage st) (sent st ++ [req]))
         | Unsettled =>
             (Unsettled, mkState (token_cache st) (storage st) (sent st ++ [req]))
         end.
Proof.
  intros Hc Hl. eexists.
  split; [|split; [|split; [|exact (getCurrentUser_request st Hc Hl)]]].
  - apply addAuthHeader_method.
  - apply addAuthHeader_url.
  - unfold addAuthHeader. destruct (truthy (token_string st)); reflexivity.
Qed.

Lemma getCurrentUser_fetches_witness :
  exists req,
    req_url req = "http://localhost:4000/apps/demo/user"
    /\ getCurrentUser (H := Sample.ok_platform) Sample.fresh_login
       = (Resolved (VStr "ok"),
          set_currentUser (H := Sample.ok_platform) (VStr "ok")
            (mkState (Some (VStr "T")) (<["token" := VStr "T"]> ∅) [req])).
Proof.
  destruct (getCurrentUser_fetches (H := Sample.ok_platform) Sample.fresh_login
              eq_refl eq_refl)
    as (req & _ & Hurl & _ & Hg).
  exists req. split; [exact Hurl|]. rewrite Hg.
  rewrite (handleResponse_outcome req Sample.fresh_login Sample.anonymous).
  reflexivity.
Defined.

(** X9. Once [getCurrentUser] has resolved with a truthy account, calling
    it again resolves with the same account and touches nothing: no
    request is sent and the state stays as the first call left it. *)
Theorem getCurrentUser_again `{Platform} (st : state) (account : value) :
  fst (getCurrentUser st) = Resolved account ->
  truthy account = true ->
  getCurrentUser (snd (getCurrentUser st))
  = (Resolved account, snd (getCurrentUser st)).
Proof.
  intros Hr Ha.
  destruct (truthy (currentUser st)) eqn:Hc.
  - unfold getCurrentUser in Hr |- *. rewrite Hc in Hr |- *.
    cbn [fst snd] in Hr |- *. rewrite Hc. injection Hr as <-. reflexivity.
  - destruct (isLoggedIn st) eqn:Hl.
    + rewrite (getCurrentUser_request st Hc Hl) in Hr |- *. cbv zeta in Hr |- *.
      destruct (fst (handleResponse _ st)) as [response|reason|].
      * cbn [fst snd] in Hr |- *. injection Hr as ->.
        assert (currentUser
                  (set_currentUser account
                     (mkState (token_cache st) (storage st)
                        (sent st ++
                         [addAuthHeader (superagent GET (endpoint +:+ "/user")) st])))
                = account) as Hcu.
        { unfold currentUser, set_currentUser, getItem, setItem. simpl.
          rewrite lookup_insert_eq. simpl. rewrite Ha. reflexivity. }
        unfold getCurrentUser. rewrite Hcu, Ha. reflexivity.
      * destruct (loose_eq_num (read reason "status") 401).
        -- cbn [fst] in Hr. injection Hr as <-. discriminate.
        -- discriminate.
      * discriminate.
    + unfold getCurrentUser in Hr. rewrite Hc, Hl in Hr. cbn [negb fst] in Hr.
      injection Hr as <-. discriminate.
Qed.

Lemma getCurrentUser_again_witness :
  getCurrentUser (H := Sample.ok_platform)
    (snd (getCurrentUser (H := Sample.ok_platform) Sample.fresh_login))
  = (Resolved (VStr "ok"),
     snd (getCurrentUser (H := Sample.ok_platform) Sample.fresh_login)).
Proof.
  exact (getCurrentUser_again (H := Sample.ok_platform) Sample.fresh_login
           (VStr "ok") eq_refl eq_refl).
Defined.

(** X10. After a [logout] of a logged-in client whose request was
    fulfilled or rejected, the session is closed for every other
    operation: [getCurrentUser] resolves with [null] and a second [logout]
    rejects with status [NULL_ACCOUNT], both without sending anything; the
    group checks answer [false]; and a following request carries no
    [Authorization] header. *)
Theorem logout_closes_session `{Platform} (st : state) :
  isLoggedIn st = true ->
  fst (logout st) <> Unsettled ->
  getCurrentUser (snd (logout st)) = (Resolved VNull, snd (logout st))
  /\ logout (snd (logout st))
     = (Rejected (failure "No logged in account to log out." "NULL_ACCOUNT"),
        snd (logout st))
  /\ (forall groups, isInGroup (snd (logout st)) groups = Normal false)
  /\ (forall groups, isInGroups (snd (logout st)) groups = Normal false)
  /\ (forall v url data,
        exists req,
          sent (snd (request_call v url data (snd (logout st))))
          = sent (snd (logout st)) ++ [req]
          /\ req_header req !! "Authorization" = None).
Proof.
  intros Hl Hn.
  assert (isLoggedIn (snd (logout st)) = false
          /\ currentUser (snd (logout st)) = VNull) as [Hi Hc].
  { revert Hn. unfold logout. rewrite Hl. cbn [negb].
    destruct (request_put (endpoint +:+ "/logout") VUndefined st)
      as [[response|reason|] st1]; cbn [then_ catch_ fst snd]; intros Hn.
    - split; [apply token_delete_clears | apply currentUser_after_logout].
    - split; [apply token_delete_clears | apply currentUser_after_logout].
    - congruence. }
  split; [|split; [|split; [|split]]].
  - generalize (snd (logout st)), Hc, Hi. intros st' Hc' Hi'.
    unfold getCurrentUser. rewrite Hc', Hi'. reflexivity.
  - generalize (snd (logout st)), Hi. intros st' Hi'.
    unfold logout. rewrite Hi'. reflexivity.
  - intros groups. rewrite isInGroup_eq, Hi. reflexivity.
  - intros groups. rewrite isInGroups_eq, Hi. reflexivity.
  - intros v url data. rewrite request_call_state. eexists.
    split; [reflexivity|].
    rewrite addAuthHeader_header, built_header.
    unfold isLoggedIn in Hi.
    destruct (truthy (token_string (snd (logout st)))); [discriminate|].
    apply lookup_empty.
Qed.

Lemma logout_closes_session_witness :
  getCurrentUser (H := Sample.down_platform)
    (snd (logout (H := Sample.down_platform) Sample.logged_in))
  = (Resolved VNull, snd (logout (H := Sample.down_platform) Sample.logged_in)).
Proof.
  apply (logout_closes_session (H := Sample.down_platform) Sample.logged_in
           eq_refl).
  vm_compute. discriminate.
Defined.

(** ** Further properties of the group checks *)

(** X11. [isInGroup] and [isInGroups] are the same function: on every
    session and every argument they give the same answer, and throw the
    same exception when they throw. *)
Theorem isInGroups_is_isInGroup `{Platform} (st : state) (checkGroups : value) :
  isInGroups st checkGroups = isInGroup st checkGroups.
Proof.
  rewrite isInGroups_eq.
  rewrite (isInGroup_eq st checkGroups).
  destruct (negb (isLoggedIn st)) eqn:Hl; [reflexivity|].
  destruct (negb (truthy checkGroups)) eqn:Ht; [reflexivity|].
  destruct checkGroups as [| |b|m e|s|items|fields]; try reflexivity.
  - cbv zeta.
    destruct (contains_char "," s) eqn:Hc.
    + pose proof (split_has "," s Hc) as Hlen.
      apply Nat.ltb_lt in Hlen. rewrite Hlen. reflexivity.
    + rewrite (split_free "," s Hc). cbn [length Nat.ltb Nat.leb head fmap
        option_fmap option_map default].
      rewrite (isInGroup_eq st (VStr s)), Hl, Ht.
      rewrite (split_free "," s Hc). reflexivity.
  - rewrite isInGroups_eq, Hl, Ht. reflexivity.
Qed.

(** X12. The group checks answer [true] only for a single name, given as
    a non-empty string without a comma, and for the empty list: a list of
    one or more groups, written as an array or as a comma-joined string,
    never passes, whatever the claims of the token are. *)
Theorem group_check_true_only_single `{Platform} (st : state) (checkGroups : value) :
  isInGroup st checkGroups = Normal true ->
  checkGroups = VArr []
  \/ exists x, checkGroups = VStr x /\ x <> "" /\ contains_char "," x = false.
Proof.
  rewrite isInGroup_eq.
  destruct (negb (isLoggedIn st)); [discriminate|].
  destruct (negb (truthy checkGroups)) eqn:Ht; [discriminate|].
  destruct checkGroups as [| |b|m e|s|items|fields]; try discriminate.
  - cbv zeta. destruct (contains_char "," s) eqn:Hc.
    + pose proof (split_has "," s Hc) as Hlen.
      apply Nat.ltb_lt in Hlen. rewrite Hlen.
      destruct (split "," s) as [|p ps]; [discriminate Hlen|].
      intros Ht'. exfalso.
      exact (isInGroups_nonempty_list_not_true st (VStr p) (fmap (M := list) VStr ps) Ht').
    + intros _. right. exists s. split; [reflexivity|].
      split; [|exact Hc]. intros ->. discriminate Ht.
  - destruct items as [|x items]; [left; reflexivity|].
    intros Ht'. exfalso.
    exact (isInGroups_nonempty_list_not_true st x items Ht').
Qed.

Lemma group_check_true_only_single_witness :
  isInGroup (H := Sample.ok_platform) Sample.fresh_login (VStr "admins")
  = Normal true
  /\ (VStr "admins" = VArr []
      \/ exists x,
           VStr "admins" = VStr x /\ x <> "" /\ contains_char "," x = false).
Proof.
  split; [reflexivity|].
  apply (group_check_true_only_single (H := Sample.ok_platform)
           Sample.fresh_login (VStr "admins")).
  reflexivity.
Defined.

(** X13. On a client that holds a token whose claims cannot be decoded
    (the Token Manager's [data] is [null]), checking a single group name
    does not answer [false]: reading [this.token.data.groups] throws a
    [TypeError], from [isInGroup] and from [isInGroups] alike. *)
Theorem group_check_throws_without_claims `{Platform} (st : state) (x : string) :
  isLoggedIn st = true ->
  nullish (token_data st) = true ->
  x <> "" ->
  contains_char "," x = false ->
  exists e,
    isInGroup st (VStr x) = Throw e
    /\ isInGroups st (VStr x) = Throw e
    /\ isInGroups st (VArr [VStr x]) = Throw e
    /\ read e "name" = VStr "TypeError".
Proof.
  intros Hl Hn Hx Hc.
  assert (truthy (VStr x) = true) as Ht.
  { simpl. destruct (String.eqb_spec x ""); [contradiction|reflexivity]. }
  assert (exists e, isInGroup st (VStr x) = Throw e
                    /\ read e "name" = VStr "TypeError") as (e & He & Hname).
  { rewrite isInGroup_eq, Hl, Ht. cbn [negb]. cbv zeta.
    rewrite (split_free "," x Hc). cbn [length Nat.ltb Nat.leb].
    destruct (token_data st); try discriminate;
      eexists; split; reflexivity. }
  exists e. split; [exact He|].
  split.
  - rewrite isInGroups_eq, Hl, Ht. cbn [negb]. cbv zeta.
    rewrite (split_free "," x Hc). cbn [length Nat.ltb Nat.leb]. exact He.
  - split; [|exact Hname].
    rewrite isInGroups_eq, Hl. cbn [negb truthy map_results isString].
    rewrite He. reflexivity.
Qed.

Lemma group_check_throws_without_claims_witness :
  exists e,
    isInGroup (H := Sample.ok_platform)
      (mkState (Some (VStr "?")) ∅ []) (VStr "admins") = Throw e.
Proof.
  destruct (group_check_throws_without_claims (H := Sample.ok_platform)
              (mkState (Some (VStr "?")) ∅ []) "admins"
              eq_refl eq_refl ltac:(discriminate) eq_refl)
    as (e & He & _).
  exists e. exact He.
Defined.

(** ** Properties of the account operations *)

Section Account_facts.

Context `{Platform} `{E : Environment}.

Lemma urls_changePassword st : read (urls st) "changePassword" = VUndefined.
Proof. unfold urls. destruct (_ && _); reflexivity. Qed.

Lemma urls_recover st : read (urls st) "recover" = VStr (endpoint +:+ "/recover").
Proof. unfold urls. destruct (_ && _); reflexivity. Qed.

Lemma urls_username st :
  truthy (read (token_data st) "username") = true ->
  read (urls st) "update"
  = VStr (endpoint +:+ "/account/" +:+ ToString (read (token_data st) "username"))
  /\ read (urls st) "upload"
     = VStr (endpoint +:+ "/account/"
             +:+ ToString (read (token_data st) "username") +:+ "/upload").
Proof.
  intros Hu. unfold urls. rewrite Hu, (read_truthy _ _ Hu). split; reflexivity.
Qed.

Lemma urls_no_username st :
  truthy (read (token_data st) "username") = false ->
  read (urls st) "update" = VUndefined /\ read (urls st) "upload" = VUndefined.
Proof.
  intros Hu. unfold urls. rewrite Hu, andb_false_r. split; reflexivity.
Qed.

(** Handlers that pass the outcome on. *)
Lemma pass_on (p : promise * state) :
  catch_ (then_ p (fun response st1 => (Resolved response, st1)))
    (fun errRes st1 => (Rejected errRes, st1)) = p.
Proof. destruct p as [[v|e|] st]; reflexivity. Qed.

Lemma truthy_superagent_put url data :
  truthy data = true -> superagent_put url data = send data (superagent PUT url).
Proof. intros Hd. unfold superagent_put. rewrite Hd. reflexivity. Qed.

(** [updateAccount] with a URL. *)
Lemma updateAccount_put updateData st :
  isLoggedIn st = true ->
  truthy updateData = true ->
  truthy (read (token_data st) "username") = true ->
  let req :=
    addAuthHeader
      (send updateData
         (superagent PUT
            (endpoint +:+ "/account/"
             +:+ ToString (read (token_data st) "username")))) st in
  updateAccount updateData st
  = (Normal (fst (handleResponse req st)),
     match fst (handleResponse req st) with
     | Resolved response =>
         mkState (token_cache st)
           (<[tokenUserDataName := response]> (storage st)) (sent st ++ [req])
     | _ => mkState (token_cache st) (storage st) (sent st ++ [req])
     end).
Proof.
  intros Hl Hd Hu req. unfold updateAccount.
  rewrite Hl, Hd. cbn [negb].
  rewrite (proj1 (urls_username st Hu)). cbn [request_put_to].
  rewrite request_put_eq, (truthy_superagent_put _ _ Hd). fold req.
  destruct (fst (handleResponse req st)); reflexivity.
Qed.

Lemma token_string_set_currentUser v st :
  tokenName <> tokenUserDataName ->
  token_string (set_currentUser v st) = token_string st.
Proof.
  intros Hk. unfold token_string, set_currentUser, setItem, getItem. simpl.
  destruct (token_cache st); [reflexivity|].
  rewrite lookup_insert_ne by congruence. reflexivity.
Qed.

End Account_facts.

(** X14. [get urls] never defines [changePassword], so on a logged-in
    client [changePassword] always calls [request.put] with an
    [undefined] URL and settles as that call does; likewise
    [updateAccount] when the claims of the token have no truthy
    [username], since [urls.update] is then missing. *)
Theorem account_urls_missing `{Platform} `{E : Environment}
    (data : value) (st : state) :
  read (urls st) "changePassword" = VUndefined
  /\ (isLoggedIn st = true ->
      changePassword data st = request_put_without_url VUndefined data st)
  /\ (isLoggedIn st = true ->
      truthy data = true ->
      truthy (read (token_data st) "username") = false ->
      updateAccount data st
      = chain (request_put_without_url VUndefined data st)
          (fun p =>
             catch_
               (then_ p
                  (fun response st1 =>
                     (Resolved response, set_currentUser response st1)))
               (fun errRes st1 => (Rejected errRes, st1)))).
Proof.
  split; [apply urls_changePassword|]. split.
  - intros Hl. unfold changePassword. rewrite Hl, urls_changePassword.
    cbn [negb request_put_to].
    destruct (request_put_without_url VUndefined data st) as [[p|e] st1];
      [|reflexivity].
    unfold chain, returned. cbn [fst snd].
    rewrite (pass_on (p, st1)). reflexivity.
  - intros Hl Hd Hu. unfold updateAccount. rewrite Hl, Hd.
    rewrite (proj1 (urls_no_username st Hu)). reflexivity.
Qed.

Lemma account_urls_missing_witness :
  changePassword (H := Account_sample.ok_platform)
    (E := Account_sample.browser Account_sample.ok_platform)
    (VStr "secret") Account_sample.ann_session
  = (Normal (Resolved (VStr "ok")),
     mkState (Some (VStr "U")) (<["token" := VStr "U"]> ∅)
       [set "Authorization" "Bearer U"
          (send (VStr "secret") (superagent PUT "undefined"))]).
Proof.
  rewrite (proj1 (proj2 (account_urls_missing
                           (H := Account_sample.ok_platform)
                           (E := Account_sample.browser Account_sample.ok_platform)
                           (VStr "secret") Account_sample.ann_session))
             eq_refl).
  reflexivity.
Defined.

(** X15. The account operations check the login before anything else: on
    a client without a token [updateAccount], [uploadImage],
    [uploadAccountImage] and [changePassword] each reject with a record
    that has a message and no [status], whatever their argument, and
    neither send a request nor change the state. On a logged-in client a
    falsy argument makes the first three reject with status
    [NULL_DATA], again without a request. *)
Theorem account_operations_guarded `{Platform} `{E : Environment}
    (data : value) (st : state) :
  (isLoggedIn st = false ->
     updateAccount data st
     = (Normal (Rejected (refusal "Must be logged in to update account.")), st)
     /\ uploadImage data st
        = (Normal (Rejected (refusal "Must be logged in to upload image.")), st)
     /\ uploadAccountImage data st
        = (Normal (Rejected (refusal "Must be logged in to upload image.")), st)
     /\ changePassword data st
        = (Normal (Rejected (refusal "Must be logged in to change password.")), st))
  /\ (isLoggedIn st = true ->
      truthy data = false ->
      updateAccount data st
      = (Normal (Rejected (failure "Data required to update account." "NULL_DATA")),
         st)
      /\ uploadImage data st
         = (Normal (Rejected (failure "Data required to update profile." "NULL_DATA")),
            st)
      /\ uploadAccountImage data st
         = (Normal (Rejected (failure "Data required to update profile." "NULL_DATA")),
            st))
  /\ (forall message, read (refusal message) "status" = VUndefined).
Proof.
  split; [|split].
  - intros Hl. unfold uploadAccountImage, uploadImage, updateAccount,
      changePassword. rewrite Hl. repeat split.
  - intros Hl Hd. unfold uploadAccountImage, uploadImage, updateAccount.
    rewrite Hl, Hd. repeat split.
  - reflexivity.
Qed.

Lemma account_operations_guarded_witness :
  uploadAccountImage (H := Account_sample.ok_platform)
    (E := Account_sample.browser Account_sample.ok_platform)
    (VStr "image") Sample.anonymous
  = (Normal (Rejected (refusal "Must be logged in to upload image.")),
     Sample.anonymous)
  /\ updateAccount (H := Account_sample.ok_platform)
       (E := Account_sample.browser Account_sample.ok_platform)
       VNull Account_sample.ann_session
     = (Normal (Rejected (failure "Data required to update account." "NULL_DATA")),
        Account_sample.ann_session).
Proof.
  split.
  - apply (proj1 (account_operations_guarded
                    (H := Account_sample.ok_platform)
                    (E := Account_sample.browser Account_sample.ok_platform)
                    (VStr "image") Sample.anonymous)).
    reflexivity.
  - apply (proj1 (proj2 (account_operations_guarded
                    (H := Account_sample.ok_platform)
                    (E := Account_sample.browser Account_sample.ok_platform)
                    VNull Account_sample.ann_session)));
      reflexivity.
Defined.

(** X16. [updateAccount] with truthy data on a client whose token claims
    carry a [username] sends one PUT request for
    [<endpoint>/account/<username>] with the data as its body and the
    bearer token as its header, and settles as that request does; a
    response replaces the cached account, a rejection or an unsettled
    request leaves the storage as it was. *)
Theorem updateAccount_sends_put `{Platform} `{E : Environment}
    (updateData : value) (st : state) :
  isLoggedIn st = true ->
  truthy updateData = true ->
  truthy (read (token_data st) "username") = true ->
  exists req,
    req_method req = PUT
    /\ req_url req
       = endpoint +:+ "/account/" +:+ ToString (read (token_data st) "username")
    /\ req_data req = updateData
    /\ req_header req !! "Authorization"
       = Some ("Bearer " +:+ ToString (token_string st))
    /\ updateAccount updateData st
       = (Normal (fst (handleResponse req st)),
          match fst (handleResponse req st) with
          | Resolved response =>
              mkState (token_cache st)
                (<[tokenUserDataName := response]> (storage st))
                (sent st ++ [req])
          | _ => mkState (token_cache st) (storage st) (sent st ++ [req])
          end)
    /\ (forall response,
          fst (handleResponse req st) = Resolved response ->
          truthy response = true ->
          currentUser (snd (updateAccount updateData st)) = response).
Proof.
  intros Hl Hd Hu.
  pose proof (updateAccount_put updateData st Hl Hd Hu) as Hup.
  cbv zeta in Hup.
  eexists. split; [|split; [|split; [|split; [|split; [exact Hup|]]]]].
  - apply addAuthHeader_method.
  - apply addAuthHeader_url.
  - unfold addAuthHeader. destruct (truthy (token_string st)); reflexivity.
  - rewrite addAuthHeader_header. unfold isLoggedIn in Hl.
    destruct (truthy (token_string st)); [reflexivity|discriminate].
  - intros response Hr Ht. rewrite Hup, Hr. cbn [snd].
    unfold currentUser, getItem. cbn [storage].
    rewrite lookup_insert_eq. simpl. rewrite Ht. reflexivity.
Qed.

Lemma updateAccount_sends_put_witness :
  exists req,
    req_url req = "http://localhost:4000/apps/demo/account/ann"
    /\ updateAccount (H := Account_sample.ok_platform)
         (E := Account_sample.browser Account_sample.ok_platform)
         (VObj [("name", VStr "Ann")]) Account_sample.ann_session
       = (Normal (Resolved (VStr "ok")),
          mkState (Some (VStr "U"))
            (<["currentUser" := VStr "ok"]> (<["token" := VStr "U"]> ∅))
            [req]).
Proof.
  destruct (updateAccount_sends_put (H := Account_sample.ok_platform)
              (E := Account_sample.browser Account_sample.ok_platform)
              (VObj [("name", VStr "Ann")]) Account_sample.ann_session
              eq_refl eq_refl eq_refl)
    as (req & _ & Hurl & _ & _ & Hup & _).
  exists req. split; [exact Hurl|]. rewrite Hup. reflexivity.
Defined.

(** X17. [uploadImage] computes an upload URL it never uses from
    [this.token.data.username]. On a logged-in client whose token does not
    decode (the claims are [null]) that read throws: with a truthy
    argument [uploadImage] and [uploadAccountImage] throw a [TypeError]
    instead of returning a promise, and send nothing. *)
Theorem uploadImage_throws_without_claims `{Platform} `{E : Environment}
    (fileData : value) (st : state) :
  isLoggedIn st = true ->
  truthy fileData = true ->
  nullish (token_data st) = true ->
  exists e,
    uploadImage fileData st = (Throw e, st)
    /\ uploadAccountImage fileData st = (Throw e, st)
    /\ read e "name" = VStr "TypeError".
Proof.
  intros Hl Hd Hn. unfold uploadAccountImage, uploadImage.
  rewrite Hl, Hd. cbn [negb].
  destruct (token_data st); try discriminate;
    eexists; repeat split; reflexivity.
Qed.

Lemma uploadImage_throws_without_claims_witness :
  exists e,
    uploadImage (H := Account_sample.ok_platform)
      (E := Account_sample.browser Account_sample.ok_platform)
      (VStr "image") Account_sample.opaque_session
    = (Throw e, Account_sample.opaque_session).
Proof.
  destruct (uploadImage_throws_without_claims
              (H := Account_sample.ok_platform)
              (E := Account_sample.browser Account_sample.ok_platform)
              (VStr "image") Account_sample.opaque_session
              eq_refl eq_refl eq_refl)
    as (e & He & _).
  exists e. exact He.
Defined.

(** X18. [uploadAccountImage] on a client whose token claims carry a
    [username] first sends the file by PUT to
    [<endpoint>/account/<username>/upload]. If that request is not
    fulfilled nothing else is sent and its outcome is the result. If it is
    fulfilled with [imgUrl], the response is stored as the cached account
    and a second PUT to [<endpoint>/account/<username>] carries
    [{image: {url: imgUrl}}]; the result is the outcome of the second
    request, whose response replaces the cached account; when the second
    request fails the upload response stays in the cache. *)
Theorem uploadAccountImage_two_requests `{Platform} `{E : Environment}
    (fileData : value) (st : state) :
  tokenName <> tokenUserDataName ->
  isLoggedIn st = true ->
  truthy fileData = true ->
  truthy (read (token_data st) "username") = true ->
  let username := ToString (read (token_data st) "username") in
  let upload :=
    addAuthHeader
      (send fileData
         (superagent PUT (endpoint +:+ "/account/" +:+ username +:+ "/upload")))
      st in
  let update imgUrl :=
    addAuthHeader
      (send (VObj [("image", VObj [("url", imgUrl)])])
         (superagent PUT (endpoint +:+ "/account/" +:+ username))) st in
  uploadAccountImage fileData st
  = match fst (handleResponse upload st) with
    | Resolved imgUrl =>
        (Normal (fst (handleResponse (update imgUrl) st)),
         mkState (token_cache st)
           (match fst (handleResponse (update imgUrl) st) with
            | Resolved account =>
                <[tokenUserDataName := account]>
                  (<[tokenUserDataName := imgUrl]> (storage st))
            | _ => <[tokenUserDataName := imgUrl]> (storage st)
            end)
           (sent st ++ [upload; update imgUrl]))
    | outcome =>
        (Normal outcome, mkState (token_cache st) (storage st) (sent st ++ [upload]))
    end.
Proof.
  intros Hk Hl Hd Hu username upload update.
  unfold uploadAccountImage.
  assert (uploadImage fileData st
          = (Normal (fst (handleResponse upload st)),
             match fst (handleResponse upload st) with
             | Resolved response =>
                 mkState (token_cache st)
                   (<[tokenUserDataName := response]> (storage st))
                   (sent st ++ [upload])
             | _ => mkState (token_cache st) (storage st) (sent st ++ [upload])
             end)) as ->.
  { unfold uploadImage. rewrite Hl, Hd. cbn [negb].
    rewrite (get_read (token_data st) "username")
      by (apply truthy_not_nullish; exact (read_truthy _ _ Hu)).
    rewrite (proj2 (urls_username st Hu)). cbn [request_put_to].
    rewrite request_put_eq, (truthy_superagent_put _ _ Hd).
    fold username. fold upload.
    destruct (fst (handleResponse upload st)); reflexivity. }
  destruct (fst (handleResponse upload st)) as [imgUrl|reason|];
    [|reflexivity|reflexivity].
  cbn [chain returned then_ fst snd].
  set (st1 := mkState (token_cache st)
                (<[tokenUserDataName := imgUrl]> (storage st))
                (sent st ++ [upload])).
  assert (token_string st1 = token_string st) as Hts
    by exact (token_string_set_currentUser imgUrl
                (mkState (token_cache st) (storage st) (sent st ++ [upload])) Hk).
  assert (token_data st1 = token_data st) as Htd
    by (unfold token_data; rewrite Hts; reflexivity).
  assert (isLoggedIn st1 = true) as Hl1
    by (unfold isLoggedIn; rewrite Hts; exact Hl).
  assert (truthy (read (token_data st1) "username") = true) as Hu1
    by (rewrite Htd; exact Hu).
  rewrite (updateAccount_put (VObj [("image", VObj [("url", imgUrl)])]) st1
             Hl1 eq_refl Hu1). cbv zeta.
  rewrite Htd. fold username.
  assert (addAuthHeader
            (send (VObj [("image", VObj [("url", imgUrl)])])
               (superagent PUT (endpoint +:+ "/account/" +:+ username))) st1
          = update imgUrl) as ->.
  { unfold update, addAuthHeader. rewrite Hts. reflexivity. }
  rewrite (handleResponse_outcome (update imgUrl) st1 st).
  cbn [in_handler].
  destruct (fst (handleResponse (update imgUrl) st));
    unfold st1; cbn [token_cache storage sent]; rewrite <- app_assoc;
    reflexivity.
Qed.

Lemma uploadAccountImage_two_requests_witness :
  uploadAccountImage (H := Account_sample.ok_platform)
    (E := Account_sample.browser Account_sample.ok_platform)
    (VStr "image") Account_sample.ann_session
  = (Normal (Resolved (VStr "ok")),
     mkState (Some (VStr "U"))
       (<["currentUser" := VStr "ok"]>
          (<["currentUser" := VStr "ok"]> (<["token" := VStr "U"]> ∅)))
       [set "Authorization" "Bearer U"
          (send (VStr "image")
             (superagent PUT "http://localhost:4000/apps/demo/account/ann/upload"));
        set "Authorization" "Bearer U"
          (send (VObj [("image", VObj [("url", VStr "ok")])])
             (superagent PUT "http://localhost:4000/apps/demo/account/ann"))]).
Proof.
  rewrite (uploadAccountImage_two_requests
             (H := Account_sample.ok_platform)
             (E := Account_sample.browser Account_sample.ok_platform)
             (VStr "image") Account_sample.ann_session
             ltac:(discriminate) eq_refl eq_refl eq_refl).
  reflexivity.
Defined.

(** X19. [recoverAccount] needs no login. A falsy argument, or one that
    is neither a string nor an object, is rejected with a message and
    nothing is sent. Otherwise one POST request for [<endpoint>/recover]
    is sent and its outcome is the result; the body is [{email: s}] for a
    string [s] with an [@], [{username: s}] for any other string, and the
    argument itself for an object. The session is never changed. *)
Theorem recoverAccount_request `{Platform}
    (accountData : value) (st : state) :
  (negb (truthy accountData)
   || (negb (isString accountData) && negb (isObject accountData)) = true ->
   recoverAccount accountData st
   = (Rejected (refusal "Account data is required to recover an account."), st))
  /\ (negb (truthy accountData)
      || (negb (isString accountData) && negb (isObject accountData)) = false ->
      let account :=
        match accountData with
        | VStr s =>
            if contains_char "@" s then VObj [("email", VStr s)]
            else VObj [("username", VStr s)]
        | _ => accountData
        end in
      let req :=
        addAuthHeader (send account (superagent POST (endpoint +:+ "/recover")))
          st in
      recoverAccount accountData st
      = (fst (handleResponse req st),
         mkState (token_cache st) (storage st) (sent st ++ [req]))).
Proof.
  split; intros Hv; unfold recoverAccount; rewrite Hv; [reflexivity|].
  cbv zeta. rewrite urls_recover. cbn [ToString].
  rewrite pass_on, request_post_eq. destruct accountData; reflexivity.
Qed.

Lemma recoverAccount_request_witness :
  recoverAccount (H := Account_sample.ok_platform)
    (VStr "ann@example.com") Sample.anonymous
  = (Resolved (VStr "ok"),
     mkState None ∅
       [send (VObj [("email", VStr "ann@example.com")])
          (superagent POST "http://localhost:4000/apps/demo/recover")])
  /\ recoverAccount (H := Account_sample.ok_platform)
       (num 7) Sample.anonymous
     = (Rejected (refusal "Account data is required to recover an account."),
        Sample.anonymous).
Proof.
  split.
  - rewrite (proj2 (recoverAccount_request
                      (H := Account_sample.ok_platform)
                      (VStr "ann@example.com") Sample.anonymous) eq_refl).
    reflexivity.
  - apply (proj1 (recoverAccount_request
                    (H := Account_sample.ok_platform)
                    (num 7) Sample.anonymous)).
    reflexivity.
Defined.

(** X20. The cached account reads back as it was stored when it is
    truthy, and as [null] when a falsy value was stored; storing it leaves
    the token alone as long as the two storage keys differ. *)
Theorem currentUser_round_trip `{Platform} (userData : value) (st : state) :
  currentUser (set_currentUser userData st)
  = (if truthy userData then userData else VNull)
  /\ (tokenName <> tokenUserDataName ->
      token_string (set_currentUser userData st) = token_string st
      /\ isLoggedIn (set_currentUser userData st) = isLoggedIn st).
Proof.
  split.
  - unfold currentUser, set_currentUser, getItem, setItem. simpl.
    rewrite lookup_insert_eq. reflexivity.
  - intros Hk. pose proof (token_string_set_currentUser userData st Hk) as Ht.
    split; [exact Ht|]. unfold isLoggedIn. rewrite Ht. reflexivity.
Qed.

Lemma currentUser_round_trip_witness :
  currentUser (H := Sample.ok_platform)
    (set_currentUser (H := Sample.ok_platform) (VStr "") Sample.fresh_login)
  = VNull
  /\ isLoggedIn (H := Sample.ok_platform)
       (set_currentUser (H := Sample.ok_platform) (VStr "") Sample.fresh_login)
     = true.
Proof.
  split.
  - exact (proj1 (currentUser_round_trip (H := Sample.ok_platform) (VStr "")
                    Sample.fresh_login)).
  - rewrite (proj2 (proj2 (currentUser_round_trip (H := Sample.ok_platform)
                             (VStr "") Sample.fresh_login)
                      ltac:(discriminate))).
    reflexivity.
Defined.

(** ** Properties of the legacy client *)

Section Legacy_facts.

Context `{Platform} `{E : Environment}.

Lemma legacy_then_client p f s :
  (forall v s1, Legacy.client (snd (f v s1)) = Legacy.client s1) ->
  Legacy.client (snd (Legacy.then_ (Legacy.requested p s) f)) = snd p.
Proof.
  intros Hf. destruct p as [[v|e|] st]; simpl; try reflexivity. apply Hf.
Qed.

Lemma legacy_catch_client p f :
  (forall v s1, Legacy.client (snd (f v s1)) = Legacy.client s1) ->
  Legacy.client (snd (Legacy.catch_ p f)) = Legacy.client (snd p).
Proof.
  intros Hf. destruct p as [[v|e|] s]; simpl; try reflexivity. apply Hf.
Qed.

Lemma legacy_login_handler_client response s1 :
  Legacy.client
    (snd (if has response "data"
             && has (read response "data") "status"
             && loose_eq_num (read (read response "data") "status") 409
          then (Rejected (read response "data"), s1)
          else
            match data ← get response "data"; get data "token" with
            | Throw e => (Rejected e, s1)
            | Normal t =>
                let s2 :=
                  Legacy.mkSession (Legacy.client s1) (Legacy.localStorage s1)
                    (Legacy.user s1) t in
                match Legacy.localStorage s2 with
                | None =>
                    (Rejected (Legacy.ReferenceError "window is not defined"), s2)
                | Some items =>
                    (Resolved (read response "data"),
                     match Legacy.getItem tokenName items with
                     | VNull =>
                         Legacy.mkSession (Legacy.client s2)
                           (Some (Legacy.setItem tokenName t items))
                           (Legacy.user s2) (Legacy.token s2)
                     | _ => s2
                     end)
                end
            end))
  = Legacy.client s1.
Proof.
  destruct (_ && _); [reflexivity|].
  destruct (data ← get response "data"; get data "token") as [t|e];
    [|reflexivity].
  cbv zeta. cbn [Legacy.localStorage].
  destruct (Legacy.localStorage s1) as [items|]; [|reflexivity].
  destruct (Legacy.getItem tokenName items); reflexivity.
Qed.

Lemma legacy_login_client loginData s :
  Legacy.client (snd (Legacy.login loginData s))
  = snd (request_put (serverUrl +:+ "/login") loginData (Legacy.client s)).
Proof.
  unfold Legacy.login. rewrite legacy_catch_client.
  - apply legacy_then_client. intros response s1.
    apply legacy_login_handler_client.
  - intros errRes s1. destruct (get errRes "status") as [status|e];
      [destruct (loose_eq_num status 409)|]; reflexivity.
Qed.

(** A stored token is never replaced by [login]. *)
Lemma legacy_login_keeps_item loginData s items text :
  Legacy.localStorage s = Some items ->
  items !! tokenName = Some text ->
  Legacy.localStorage (snd (Legacy.login loginData s)) = Some items.
Proof.
  intros Hs Hi. unfold Legacy.login.
  destruct (request_put (serverUrl +:+ "/login") loginData (Legacy.client s))
    as [[response|reason|] st1]; unfold Legacy.requested;
    cbn [fst snd Legacy.then_ Legacy.catch_].
  - destruct (_ && _).
    + cbn [Legacy.catch_].
      destruct (get (read response "data") "status") as [status|e];
        [destruct (loose_eq_num status 409)|]; exact Hs.
    + destruct (data ← get response "data"; get data "token") as [t|e].
      * cbv zeta. cbn [Legacy.localStorage]. rewrite Hs.
        unfold Legacy.getItem. rewrite Hi. reflexivity.
      * cbn [Legacy.catch_].
        destruct (get e "status") as [status|e'];
          [destruct (loose_eq_num status 409)|]; exact Hs.
  - destruct (get reason "status") as [status|e];
      [destruct (loose_eq_num status 409)|]; exact Hs.
  - exact Hs.
Qed.

End Legacy_facts.

(** X21. The legacy client validates nothing and caches nothing: whatever
    the argument and the session, [signup], [login], [logout] and
    [getCurrentUser] each hand exactly one request to the Request Client,
    a POST for [<serverUrl>/signup] with the data, a PUT for
    [<serverUrl>/login] with the data when they are truthy, a PUT for
    [<serverUrl>/logout] with an empty object as body, and a GET for
    [<serverUrl>/user] with an empty object as query. *)
Theorem legacy_always_requests `{Platform} `{E : Environment}
    (data : value) (s : Legacy.session) :
  sent (Legacy.client (snd (Legacy.signup data s)))
  = sent (Legacy.client s)
    ++ [addAuthHeader (send data (superagent POST (serverUrl +:+ "/signup")))
          (Legacy.client s)]
  /\ sent (Legacy.client (snd (Legacy.login data s)))
     = sent (Legacy.client s)
       ++ [addAuthHeader (superagent_put (serverUrl +:+ "/login") data)
             (Legacy.client s)]
  /\ sent (Legacy.client (snd (Legacy.logout s)))
     = sent (Legacy.client s)
       ++ [addAuthHeader (send (VObj []) (superagent PUT (serverUrl +:+ "/logout")))
             (Legacy.client s)]
  /\ sent (Legacy.client (snd (Legacy.getCurrentUser s)))
     = sent (Legacy.client s)
       ++ [addAuthHeader (query (VObj []) (superagent GET (serverUrl +:+ "/user")))
             (Legacy.client s)].
Proof.
  split; [|split; [|split]].
  - unfold Legacy.signup. rewrite legacy_catch_client by reflexivity.
    rewrite legacy_then_client by reflexivity.
    rewrite request_post_eq. reflexivity.
  - rewrite legacy_login_client, request_put_eq. reflexivity.
  - unfold Legacy.logout. rewrite legacy_catch_client by reflexivity.
    rewrite legacy_then_client.
    + rewrite request_put_eq. reflexivity.
    + intros response s1. cbv zeta.
      destruct (get response "body"); destruct (Legacy.localStorage s1);
        reflexivity.
  - unfold Legacy.getCurrentUser. rewrite legacy_catch_client by reflexivity.
    rewrite legacy_then_client.
    + rewrite request_get_eq. reflexivity.
    + intros response s1. destruct (get response "data"); reflexivity.
Qed.

(** X22. The outcome of a legacy [login] whose request is fulfilled. A
    response whose [data] reports status 409 is rejected with the text
    [Account not found]. Any other response without a [data] object (the
    response or its [data] is [null] or [undefined]) is rejected with a
    [TypeError], and where there is no [window] every other response is
    rejected with a [ReferenceError]. In a browser the promise resolves
    with [response.data], and the token of the response is written to
    [window.localStorage], as a string, only when no item is stored under
    the token's key yet. *)
Theorem legacy_login_outcomes `{Platform} `{E : Environment}
    (loginData response : value) (s : Legacy.session) :
  fst (request_put (serverUrl +:+ "/login") loginData (Legacy.client s))
  = Resolved response ->
  let conflict :=
    has response "data" && has (read response "data") "status"
    && loose_eq_num (read (read response "data") "status") 409 in
  (conflict = true ->
   fst (Legacy.login loginData s) = Rejected (VStr "Account not found")
   /\ Legacy.localStorage (snd (Legacy.login loginData s)) = Legacy.localStorage s)
  /\ (conflict = false ->
      nullish response || nullish (read response "data") = true ->
      (exists e, fst (Legacy.login loginData s) = Rejected e
                 /\ read e "name" = VStr "TypeError")
      /\ Legacy.localStorage (snd (Legacy.login loginData s))
         = Legacy.localStorage s)
  /\ (conflict = false ->
      nullish response || nullish (read response "data") = false ->
      match Legacy.localStorage s with
      | None =>
          fst (Legacy.login loginData s)
          = Rejected (Legacy.ReferenceError "window is not defined")
      | Some items =>
          fst (Legacy.login loginData s) = Resolved (read response "data")
          /\ Legacy.localStorage (snd (Legacy.login loginData s))
             = Some (match items !! tokenName with
                     | Some _ => items
                     | None =>
                         <[tokenName :=
                             ToString (read (read response "data") "token")]>
                           items
                     end)
      end).
Proof.
  intros Hr conflict. unfold Legacy.login.
  destruct (request_put (serverUrl +:+ "/login") loginData (Legacy.client s))
    as [p st1]. cbn [fst] in Hr. subst p.
  unfold Legacy.requested. cbn [fst snd Legacy.then_]. fold conflict.
  split; [|split].
  - intros Hc. rewrite Hc. cbn [Legacy.catch_].
    unfold conflict in Hc. apply andb_true_iff in Hc as [Hc H409].
    apply andb_true_iff in Hc as [_ Hs].
    rewrite (get_read _ "status" (has_not_nullish _ _ Hs)), H409.
    split; reflexivity.
  - intros Hc Hn. rewrite Hc.
    assert (exists message,
              (data ← get response "data"; get data "token")
              = Throw (TypeError message)) as (message & ->).
    { destruct (nullish response) eqn:Hnr.
      - destruct response; try discriminate; eexists; reflexivity.
      - rewrite (get_read _ "data" Hnr). cbn [mbind completion_bind].
        cbn [orb] in Hn.
        destruct (read response "data"); try discriminate;
          eexists; reflexivity. }
    cbn [Legacy.catch_]. split; [|reflexivity].
    exists (TypeError message). split; reflexivity.
  - intros Hc Hn. rewrite Hc.
    apply orb_false_iff in Hn as [Hnr Hnd].
    rewrite (get_read _ "data" Hnr). cbn [mbind completion_bind].
    rewrite (get_read _ "token" Hnd). cbv zeta. cbn [Legacy.localStorage].
    destruct (Legacy.localStorage s) as [items|].
    + cbn [Legacy.catch_ fst snd]. split; [reflexivity|].
      unfold Legacy.getItem, Legacy.setItem.
      destruct (items !! tokenName); reflexivity.
    + cbn [Legacy.catch_]. reflexivity.
Qed.

Lemma legacy_login_outcomes_witness :
  exists e,
    fst (Legacy.login (H := Account_sample.ok_platform)
           (E := Account_sample.browser Account_sample.ok_platform)
           Sample.bob
           (Legacy.mkSession Sample.anonymous (Some ∅) VUndefined VUndefined))
    = Rejected e
    /\ read e "name" = VStr "TypeError".
Proof.
  exact (proj1 (proj1 (proj2 (legacy_login_outcomes
                  (H := Account_sample.ok_platform)
                  (E := Account_sample.browser Account_sample.ok_platform)
                  Sample.bob (VStr "ok")
                  (Legacy.mkSession Sample.anonymous (Some ∅) VUndefined VUndefined)
                  eq_refl)) eq_refl eq_refl)).
Defined.

(** X23. In a browser a fulfilled legacy [logout] does not remove the
    stored token: it stores the text [null] under the token's key.
    [getAuthToken] then gives the string ["null"], a truthy value, and no
    later [login] replaces it, since [login] only writes the token when no
    item is stored. *)
Theorem legacy_logout_stores_null `{Platform} `{E : Environment}
    (s : Legacy.session) (items : gmap string string) (response : value) :
  Legacy.localStorage s = Some items ->
  fst (request_put (serverUrl +:+ "/logout") (VObj []) (Legacy.client s))
  = Resolved response ->
  Legacy.localStorage (snd (Legacy.logout s))
  = Some (<[tokenName := "null"]> items)
  /\ Legacy.getAuthToken (snd (Legacy.logout s)) = VStr "null"
  /\ truthy (Legacy.getAuthToken (snd (Legacy.logout s))) = true
  /\ (forall loginData,
        Legacy.getAuthToken
          (snd (Legacy.login loginData (snd (Legacy.logout s))))
        = VStr "null").
Proof.
  intros Hs Hr.
  assert (Legacy.localStorage (snd (Legacy.logout s))
          = Some (<[tokenName := "null"]> items)) as Hl.
  { unfold Legacy.logout.
    destruct (request_put (serverUrl +:+ "/logout") (VObj []) (Legacy.client s))
      as [p st1]. cbn [fst] in Hr. subst p.
    unfold Legacy.requested. cbn [fst snd Legacy.then_ Legacy.localStorage].
    rewrite Hs. cbv zeta.
    destruct (get response "body"); reflexivity. }
  assert (forall s', Legacy.localStorage s' = Some (<[tokenName := "null"]> items) ->
                     Legacy.getAuthToken s' = VStr "null") as Hg.
  { intros s' Hs'. unfold Legacy.getAuthToken, Legacy.getItem.
    rewrite Hs', lookup_insert_eq. reflexivity. }
  split; [exact Hl|]. split; [exact (Hg _ Hl)|].
  split; [rewrite (Hg _ Hl); reflexivity|].
  intros loginData. apply Hg.
  apply (legacy_login_keeps_item loginData _ _ "null" Hl).
  apply lookup_insert_eq.
Qed.

Lemma legacy_logout_stores_null_witness :
  Legacy.getAuthToken (H := Account_sample.ok_platform)
    (snd (Legacy.logout (H := Account_sample.ok_platform)
            (E := Account_sample.browser Account_sample.ok_platform)
            (Legacy.mkSession Sample.anonymous (Some (<["token" := "U"]> ∅))
               VUndefined VUndefined)))
  = VStr "null".
Proof.
  exact (proj1 (proj2 (legacy_logout_stores_null
                        (H := Account_sample.ok_platform)
                        (E := Account_sample.browser Account_sample.ok_platform)
                        (Legacy.mkSession Sample.anonymous
                           (Some (<["token" := "U"]> ∅)) VUndefined VUndefined)
                        (<["token" := "U"]> ∅) (VStr "ok") eq_refl eq_refl))).
Defined.
